(** * finalhandler: the final responder of an HTTP middleware chain

    A shallow embedding of the two variants of [finalhandler] found in the
    repository,

      - [src/unnamed/part_000]: the variant with the [message] and
        [stacktrace] options (module [Part000] below), and
      - [src/index.js]: the variant with the [env] option (module
        [IndexJs] below),

    together with the helpers that are textually the same in both files
    ([constructHtmlBody], [constructTextBody], [send], [unpipe]).

    Conventions.
      - A JavaScript string is represented by its UTF-8 byte sequence, a
        Rocq [string].  Every string operation of the code (concatenation,
        the replacement of the ASCII characters [&], [<], [>], quotes,
        newline and space) acts on ASCII bytes only and so commutes with
        the encoding; [new Buffer(s, 'utf8')] is then the identity on the
        bytes and [body.length] is [String.length].
      - Numbers that the code compares or stores as status codes are
        integers ([Z]).
      - The response and the request stream are mutable objects owned by
        the transport; the responder's effects on them are threaded
        through an explicit [World]. *)

From Stdlib Require Import ZArith String Ascii List Bool Lia.
From stdpp Require Import base option gmap strings.

Local Open Scope string_scope.
Local Open Scope Z_scope.

(* ===================================================================== *)
(** ** JavaScript values, as far as the options bag needs them *)
(* ===================================================================== *)

(** A value of the options bag.  [F] is the type of the functions that
    may be stored in the property at hand. *)
Inductive JsValue (F : Type) : Type :=
| JUndefined
| JNull
| JBool (b : bool)
| JNumber (n : Z)
| JString (s : string)
| JFunction (f : F)
| JObject.

Arguments JUndefined {F}.
Arguments JNull {F}.
Arguments JBool {F} b.
Arguments JNumber {F} n.
Arguments JString {F} s.
Arguments JFunction {F} f.
Arguments JObject {F}.

(** The result of [typeof]. *)
Inductive JsType := TUndefined | TObject | TBoolean | TNumber | TString | TFunction.

Definition typeof {F} (v : JsValue F) : JsType :=
  match v with
  | JUndefined => TUndefined
  | JNull => TObject
  | JBool _ => TBoolean
  | JNumber _ => TNumber
  | JString _ => TString
  | JFunction _ => TFunction
  | JObject => TObject
  end.

Definition JsType_eqb (a b : JsType) : bool :=
  match a, b with
  | TUndefined, TUndefined | TObject, TObject | TBoolean, TBoolean
  | TNumber, TNumber | TString, TString | TFunction, TFunction => true
  | _, _ => false
  end.

(** Truthiness of a string: only the empty string is falsy. *)
Definition truthy_string (s : string) : bool :=
  match s with EmptyString => false | String _ _ => true end.

(** Truthiness of an integer: only zero is falsy. *)
Definition truthy_number (n : Z) : bool := negb (n =? 0).

(** JavaScript's ToBoolean. *)
Definition truthy {F} (v : JsValue F) : bool :=
  match v with
  | JUndefined | JNull => false
  | JBool b => b
  | JNumber n => truthy_number n
  | JString s => truthy_string s
  | JFunction _ | JObject => true
  end.

(** [a || b] on values. *)
Definition js_or {F} (a b : JsValue F) : JsValue F :=
  if truthy a then a else b.

(** A property that holds a string or is absent ([undefined]). *)
Definition truthy_opt (o : option string) : bool :=
  match o with Some s => truthy_string s | None => false end.

(** [a || b] where [a] is a string or [undefined] and [b] is a string. *)
Definition or_string (a : option string) (b : string) : string :=
  match a with
  | Some s => if truthy_string s then s else b
  | None => b
  end.

(** [a || b] where both are a string or [undefined]. *)
Definition or_opt (a b : option string) : option string :=
  if truthy_opt a then a else b.

(** String conversion ([String(v)], ['' + v], [v + '\n']) of a value that
    is a string or [undefined]. *)
Definition to_str (o : option string) : string :=
  match o with Some s => s | None => "undefined" end.

(* ===================================================================== *)
(** ** Strings: escaping and the two global replacements *)
(* ===================================================================== *)

Definition LF : ascii := Ascii.ascii_of_nat 10.
Definition nl : string := String LF EmptyString.
Definition DQUOTE : ascii := Ascii.ascii_of_nat 34.

(** Modelled from the spec: [escapeHtml] is the [escape-html] package,
    which is required by both source files and is not under [src/].  The
    spec (section 6) describes it as the utility that escapes
    the five characters less-than, greater-than, ampersand, double quote
    and apostrophe for safe embedding in HTML; the entities are the ones
    the package emits. *)
Definition escape_char (c : ascii) : string :=
  if Ascii.eqb c "&" then "&amp;"
  else if Ascii.eqb c DQUOTE then "&quot;"
  else if Ascii.eqb c "'" then "&#39;"
  else if Ascii.eqb c "<" then "&lt;"
  else if Ascii.eqb c ">" then "&gt;"
  else String c EmptyString.

(** Modelled from the spec: [escapeHtml] of the [escape-html] package
    (see [escape_char]), applied to a string character by character. *)
Fixpoint escapeHtml (s : string) : string :=
  match s with
  | EmptyString => EmptyString
  | String c rest => escape_char c ++ escapeHtml rest
  end.

(** [.replace(/\n/g, '<br>')] *)
Fixpoint replace_newlines (s : string) : string :=
  match s with
  | EmptyString => EmptyString
  | String c rest =>
      if Ascii.eqb c LF then "<br>" ++ replace_newlines rest
      else String c (replace_newlines rest)
  end.

(** [.replace(/  /g, ' &nbsp;')]: the matches of a global regular
    expression are found left to right and do not overlap. *)
Fixpoint replace_double_spaces (s : string) : string :=
  match s with
  | EmptyString => EmptyString
  | String c rest =>
      match rest with
      | String d rest' =>
          if Ascii.eqb c " " && Ascii.eqb d " "
          then " &nbsp;" ++ replace_double_spaces rest'
          else String c (replace_double_spaces rest)
      | EmptyString => String c EmptyString
      end
  end.

(** [needle] occurs in [hay]. *)
Definition Contains (needle hay : string) : Prop :=
  exists pre post, hay = pre ++ needle ++ post.

(** The characters [escapeHtml] rewrites. *)
Definition special (c : ascii) : bool :=
  Ascii.eqb c "&" || Ascii.eqb c DQUOTE || Ascii.eqb c "'"
  || Ascii.eqb c "<" || Ascii.eqb c ">".

(** Text that is already safe for HTML: none of its characters is
    rewritten. *)
Fixpoint safe_text (s : string) : bool :=
  match s with
  | EmptyString => true
  | String c rest => negb (special c) && safe_text rest
  end.

(* ===================================================================== *)
(** ** Data model *)
(* ===================================================================== *)

(** The error handed to the responder: any truthy value.  Its attributes
    are read defensively; an attribute that is absent is [None].
    [err_toString] is [String(err)] (equally [err.toString()]). *)
Record Error := mkError {
  err_status : option Z;
  err_message : option string;
  err_stack : option string;
  err_name : option string;
  err_toString : string
}.

(** A [message] option in function shape: called as [message(err, status)],
    it returns a string or [undefined]. *)
Definition MessageFn : Type := Error -> Z -> option string.

(** An [onerror] callback is opaque here: it is only scheduled, never
    run by the responder. *)
Definition Callback : Type := nat.

(** The options bag.  Every property may hold any value; a property that
    is missing is [JUndefined]. *)
Record Options := mkOptions {
  opt_message : JsValue MessageFn;
  opt_onerror : JsValue Callback;
  opt_stacktrace : JsValue unit;
  opt_env : JsValue unit
}.

(** [options || {}] where [options] was not given. *)
Definition no_options : Options :=
  mkOptions JUndefined JUndefined JUndefined JUndefined.

(** The request, as far as the responder reads it. *)
Record Request := mkRequest {
  method : string;
  url : string;
  originalUrl : option string;
  accept_header : option string;
  (** [req.readable]: the incoming stream has not been drained yet *)
  readable : bool;
  (** [typeof stream.unpipe === 'function'] *)
  has_unpipe : bool;
  (** names of the listeners of the stream's [close] event, in order *)
  close_listeners : list string
}.

(** A [Buffer] with the [type] property the body builders attach. *)
Record Buffer := mkBuffer {
  bytes : string;
  type : string
}.

(** [body.length]: the number of bytes. *)
Definition buffer_length (b : Buffer) : Z := Z.of_nat (String.length (bytes b)).

(** A header value: [setHeader] is given strings and, for
    [Content-Length], a number. *)
Inductive HeaderValue :=
| HString (s : string)
| HNumber (n : Z).

(** Calls the responder makes on the transport's objects, other than
    assignments to [res.statusCode] (a field of [World]). *)
Inductive Effect :=
| SetHeader (name : string) (value : HeaderValue)   (* res.setHeader(name, value) *)
| End (chunk : option Buffer)                       (* res.end() or res.end(body, 'utf8') *)
| Destroy                                           (* req.socket.destroy() *)
| Defer (onerror : JsValue Callback) (err : Error)  (* defer(onerror, err, req, res) *)
| Unpipe                                            (* stream.unpipe() *)
| CallListener (name : string)                      (* listener.call(stream) *)
| Resume.                                           (* req.resume() *)

(** The closure [write] of [send], registered with [req.once('end', write)]:
    it captures [req], [res], [status] and [body]. *)
Record Write := mkWrite {
  w_req : Request;
  w_status : Z;
  w_body : Buffer
}.

(** The mutable state shared with the transport. *)
Record World := mkWorld {
  (** [res.statusCode] *)
  statusCode : Z;
  (** [res._header] is set: the headers have been sent *)
  header_sent : bool;
  (** the response's header table, as filled by [res.setHeader] *)
  headers : gmap string HeaderValue;
  (** one-shot listeners of the request's [end] event, oldest first *)
  end_once : list Write;
  (** the calls made so far, oldest first *)
  effects : list Effect
}.

(** The collaborators outside the repository. *)
Class Collaborators := {
  (** [http.STATUS_CODES]: the standard reason phrase of a status code *)
  STATUS_CODES : Z -> option string;
  (** [accepts(req).types(...)]: the best of the given types for the
      request's Accept header, or [false] ([None]) *)
  accepts_types : Request -> list string -> option string
}.

(** What a call of the configurator yields: a value, or a thrown
    exception. *)
Inductive Exception :=
| TypeError (text : string).

Inductive Result (A : Type) : Type :=
| Ok (a : A)
| Throw (e : Exception).

Arguments Ok {A} a.
Arguments Throw {A} e.

(* ===================================================================== *)
(** ** Primitive operations on the transport's objects *)
(* ===================================================================== *)

(** [res.statusCode = n] *)
Definition set_statusCode (n : Z) (w : World) : World :=
  mkWorld n (header_sent w) (headers w) (end_once w) (effects w).

Definition perform (e : Effect) (w : World) : World :=
  mkWorld (statusCode w) (header_sent w) (headers w) (end_once w)
          (effects w ++ [e]).

(** [res.setHeader(name, value)] *)
Definition setHeader (name : string) (value : HeaderValue) (w : World) : World :=
  perform (SetHeader name value)
    (mkWorld (statusCode w) (header_sent w) (<[name := value]> (headers w))
             (end_once w) (effects w)).

(** [req.once('end', fn)] *)
Definition once_end (fn : Write) (w : World) : World :=
  mkWorld (statusCode w) (header_sent w) (headers w) (end_once w ++ [fn])
          (effects w).

(** The effects that write a header or the body of the response. *)
Definition is_write (e : Effect) : bool :=
  match e with
  | SetHeader _ _ | End _ => true
  | _ => false
  end.

Definition writes (w : World) : list Effect := List.filter is_write (effects w).

(** The payloads handed to [res.end], oldest first. *)
Fixpoint ends (es : list Effect) : list (option Buffer) :=
  match es with
  | [] => []
  | End chunk :: es' => chunk :: ends es'
  | _ :: es' => ends es'
  end.

(* ===================================================================== *)
(** ** Body builders (the same text in both source files) *)
(* ===================================================================== *)

Section Builders.
Context `{Collaborators}.

(** The message of the HTML body: escaped, newlines as line breaks,
    pairs of spaces kept visible. *)
Definition html_message (message : option string) : string :=
  replace_double_spaces (replace_newlines (escapeHtml (to_str message))).

(** The fixed document around a title and a message. *)
Definition html_document (title msg : string) : string :=
  "<!doctype html>" ++ nl
  ++ "<html lang=en>" ++ nl
  ++ "<head>" ++ nl
  ++ "<meta charset=utf-8>" ++ nl
  ++ "<title>" ++ title ++ "</title>" ++ nl
  ++ "</head>" ++ nl
  ++ "<body>" ++ nl
  ++ msg ++ nl
  ++ "</body>" ++ nl.

Definition constructHtmlBody (status : Z) (message : option string) : Buffer :=
  let msg := html_message message in
  let html := html_document (escapeHtml (to_str (STATUS_CODES status))) msg in
  mkBuffer html "text/html; charset=utf-8".

Definition constructTextBody (status : Z) (message : option string) : Buffer :=
  let msg := to_str message ++ nl in
  mkBuffer msg "text/plain; charset=utf-8".

(** The [switch (type)] of the responder after
    [accept.types('html', 'text')]. *)
Definition negotiate (req : Request) : Z -> option string -> Buffer :=
  match accepts_types req ["html"; "text"] with
  | Some t => if String.eqb t "html" then constructHtmlBody else constructTextBody
  | None => constructTextBody
  end.

End Builders.

(* ===================================================================== *)
(** ** Transmitter (the same text in both source files) *)
(* ===================================================================== *)

(** The inner function [write] of [send]. *)
Definition write (req : Request) (status : Z) (body : Buffer) (w : World) : World :=
  let w := set_statusCode status w in
  let w := setHeader "X-Content-Type-Options" (HString "nosniff") w in
  let w := setHeader "Content-Type" (HString (type body)) w in
  let w := setHeader "Content-Length" (HNumber (buffer_length body)) w in
  if String.eqb (method req) "HEAD"
  then perform (End None) w
  else perform (End (Some body)) w.

(** The loop of the Node.js 0.8 branch of [unpipe]. *)
Fixpoint call_pipe_listeners (listeners : list string) (w : World) : World :=
  match listeners with
  | [] => w
  | name :: rest =>
      if negb (String.eqb name "cleanup") && negb (String.eqb name "onclose")
      then call_pipe_listeners rest w
      else call_pipe_listeners rest (perform (CallListener name) w)
  end.

Definition unpipe (stream : Request) (w : World) : World :=
  if has_unpipe stream
  then perform Unpipe w
  else call_pipe_listeners (close_listeners stream) w.

Definition send (req : Request) (status : Z) (body : Buffer) (w : World) : World :=
  if negb (readable req)
  then write req status body w
  else
    let w := unpipe req w in
    let w := once_end (mkWrite req status body) w in
    perform Resume w.

(** The transport emits [end] on the request stream: the one-shot
    listeners run in the order of registration and are removed. *)
Definition run_write (fn : Write) (w : World) : World :=
  write (w_req fn) (w_status fn) (w_body fn) w.

Definition emit_end (w : World) : World :=
  fold_left (fun acc fn => run_write fn acc) (end_once w)
    (mkWorld (statusCode w) (header_sent w) (headers w) [] (effects w)).

(** The 404 message of both variants. *)
Definition cannot_message (req : Request) : string :=
  "Cannot " ++ method req ++ " " ++ or_string (originalUrl req) (url req).

(* ===================================================================== *)
(** ** The variant of [src/unnamed/part_000] *)
(* ===================================================================== *)

Module Part000.

(** What the returned closure has captured besides [req] and [res]. *)
Record Config := mkConfig {
  cfg_message : JsValue MessageFn;
  cfg_onerror : JsValue Callback;
  cfg_stacktrace : JsValue unit
}.

Definition in_4xx_5xx (o : option Z) : bool :=
  match o with
  | Some n => (400 <=? n) && (n <? 600)
  | None => false
  end.

Definition getDefaultErrorMessage : MessageFn :=
  fun err _ => if in_4xx_5xx (err_status err) then err_message err else None.

(** [options.message === true ? getDefaultErrorMessage
                              : options.message || false] *)
Definition message_option (options : Options) : JsValue MessageFn :=
  match opt_message options with
  | JBool true => JFunction getDefaultErrorMessage
  | m => js_or m (JBool false)
  end.

Definition bad_message_type (message : JsValue MessageFn) : bool :=
  negb (JsType_eqb (typeof message) TBoolean)
  && negb (JsType_eqb (typeof message) TFunction).

(** The configurator: the part of [finalhandler] that runs before the
    closure is returned.  [None] is a call without options. *)
Definition finalhandler (options : option Options) : Result Config :=
  let options := default no_options options in
  let message := message_option options in
  if bad_message_type message
  then Throw (TypeError "option message must be boolean or function")
  else
    let onerror := opt_onerror options in
    let stacktrace := js_or (opt_stacktrace options) (JBool false) in
    Ok (mkConfig message onerror stacktrace).

(** [message(err, status)].  A validated truthy [message] is a function;
    calling anything else would be a type error of the engine, which
    [finalhandler] has excluded. *)
Definition call_message (message : JsValue MessageFn) (err : Error) (status : Z)
  : option string :=
  match message with
  | JFunction f => f err status
  | _ => None
  end.

Section Responder.
Context `{Collaborators}.

Definition getErrorMessage (err : Error) (status : Z)
           (message : JsValue MessageFn) : option string :=
  let msg := if truthy message then call_message message err status else None in
  or_opt msg (STATUS_CODES status).

(** [stack.substr(stack.indexOf('\n'))] when the index is not -1,
    else [stack]. *)
Fixpoint from_first_newline (stack : string) : option string :=
  match stack with
  | EmptyString => None
  | String c rest =>
      if Ascii.eqb c LF then Some stack else from_first_newline rest
  end.

Definition getErrorStack (err : Error) (status : Z)
           (message : JsValue MessageFn) : string :=
  let stack := or_string (err_stack err) "" in
  if truthy message then
    let msg := or_string
                 (or_opt (call_message message err status) (err_message err))
                 (err_toString err) in
    let name := err_name err in
    let stack := default stack (from_first_newline stack) in
    if truthy_opt name
    then to_str name ++ ": " ++ msg ++ stack
    else msg ++ stack
  else if negb (truthy_string stack) then err_toString err
  else stack.

(** Status resolution: the local [status] after the [if (err)]
    statement. *)
Definition resolve_status (current : Z) (err : option Error) : Z :=
  match err with
  | Some e =>
      (* default status code to 500 *)
      let status := if negb (truthy_number current) || (current <? 400)
                    then 500 else current in
      (* respect err.status *)
      match err_status e with
      | Some n => if (400 <=? n) && (n <? 600) then n else status
      | None => status
      end
  | None => 404
  end.

Definition resolve_message (cfg : Config) (req : Request)
           (status : Z) (err : option Error) : option string :=
  match err with
  | Some e =>
      if truthy (cfg_stacktrace cfg)
      then Some (getErrorStack e status (cfg_message cfg))
      else getErrorMessage e status (cfg_message cfg)
  | None => Some (cannot_message req)
  end.

(** [if (err && onerror) defer(onerror, err, req, res)] *)
Definition schedule_onerror (onerror : JsValue Callback)
           (err : option Error) (w : World) : World :=
  match err with
  | Some e => if truthy onerror then perform (Defer onerror e) w else w
  | None => w
  end.

(** The closure returned by [finalhandler(req, res, options)], called
    with [err] ([None] is a falsy argument). *)
Definition responder (cfg : Config) (req : Request)
           (err : option Error) (w : World) : World :=
  let status := resolve_status (statusCode w) err in
  let msg := resolve_message cfg req status err in
  let w := schedule_onerror (cfg_onerror cfg) err w in
  if header_sent w then perform Destroy w
  else
    let constructBody := negotiate req in
    let body := constructBody status msg in
    send req status body w.

End Responder.

End Part000.

(* ===================================================================== *)
(** ** The variant of [src/index.js] *)
(* ===================================================================== *)

Module IndexJs.

Record Config := mkConfig {
  cfg_env : JsValue unit;
  cfg_onerror : JsValue Callback
}.

(** [process.env.NODE_ENV] as a value: a string, or [undefined]. *)
Definition env_value (node_env : option string) : JsValue unit :=
  match node_env with
  | Some s => JString s
  | None => JUndefined
  end.

(** The configurator.  [node_env] is [process.env.NODE_ENV]; [None] for
    [options] is a call without options.  No property of the bag is
    inspected beyond [env] and [onerror], and nothing is thrown. *)
Definition finalhandler (node_env : option string) (options : option Options)
  : Config :=
  let options := default no_options options in
  let env := js_or (js_or (opt_env options) (env_value node_env))
                   (JString "development") in
  let onerror := opt_onerror options in
  mkConfig env onerror.

(** [env === 'production'] *)
Definition is_production (env : JsValue unit) : bool :=
  match env with
  | JString s => String.eqb s "production"
  | _ => false
  end.

(** [if (err.status)] *)
Definition truthy_status (o : option Z) : bool :=
  match o with
  | Some n => truthy_number n
  | None => false
  end.

Section Responder.
Context `{Collaborators}.

(** The assignments to [res.statusCode] of the [if (err)] statement. *)
Definition resolve_status (err : option Error) (w : World) : World :=
  match err with
  | Some e =>
      let w := if negb (truthy_number (statusCode w)) || (statusCode w <? 400)
               then set_statusCode 500 w else w in
      match err_status e with
      | Some n => if truthy_number n then set_statusCode n w else w
      | None => w
      end
  | None => set_statusCode 404 w
  end.

(** [msg], computed after [res.statusCode] has been assigned. *)
Definition resolve_message (cfg : Config) (req : Request)
           (err : option Error) (w : World) : option string :=
  match err with
  | Some e =>
      if is_production (cfg_env cfg)
      then STATUS_CODES (statusCode w)
      else Some (or_string (err_stack e) (err_toString e))
  | None => Some (cannot_message req)
  end.

Definition schedule_onerror (onerror : JsValue Callback)
           (err : option Error) (w : World) : World :=
  match err with
  | Some e => if truthy onerror then perform (Defer onerror e) w else w
  | None => w
  end.

(** The closure returned by [finalhandler(req, res, options)]. *)
Definition responder (cfg : Config) (req : Request)
           (err : option Error) (w : World) : World :=
  let w := resolve_status err w in
  let msg := resolve_message cfg req err w in
  let w := schedule_onerror (cfg_onerror cfg) err w in
  if header_sent w then perform Destroy w
  else
    let constructBody := negotiate req in
    let body := constructBody (statusCode w) msg in
    send req (statusCode w) body w.

End Responder.

End IndexJs.

(* ===================================================================== *)
(** ** Notions used in the statements *)
(* ===================================================================== *)

(** A string without a less-than sign. *)
Fixpoint no_lt (s : string) : bool :=
  match s with
  | EmptyString => true
  | String c rest => negb (Ascii.eqb c "<") && no_lt rest
  end.

(** Every less-than sign is followed by a character other than [s]. *)
Fixpoint tame (s : string) : bool :=
  match s with
  | EmptyString => true
  | String c rest =>
      if Ascii.eqb c "<"
      then match rest with
           | EmptyString => false
           | String d _ => negb (Ascii.eqb d "s") && tame rest
           end
      else tame rest
  end.

(** The world once the request stream has been read to its end: if the
    stream was still readable when the responder ran, the transport has
    emitted [end] since. *)
Definition settle (req : Request) (w : World) : World :=
  if readable req then emit_end w else w.

(** The state [send] leaves behind before [write] runs: untouched when the
    stream was drained already, else unpiped and resumed. *)
Definition drain (req : Request) (w : World) : World :=
  if readable req then perform Resume (unpipe req w) else w.

(** The four calls of [write], in order. *)
Definition write_calls (req : Request) (body : Buffer) : list Effect :=
  [ SetHeader "X-Content-Type-Options" (HString "nosniff");
    SetHeader "Content-Type" (HString (type body));
    SetHeader "Content-Length" (HNumber (buffer_length body));
    End (if String.eqb (method req) "HEAD" then None else Some body) ].

(** The header table after [write]. *)
Definition write_headers (body : Buffer) (hs : gmap string HeaderValue)
  : gmap string HeaderValue :=
  <["Content-Length" := HNumber (buffer_length body)]>
    (<["Content-Type" := HString (type body)]>
       (<["X-Content-Type-Options" := HString "nosniff"]> hs)).

(** The call scheduled by [if (err && onerror) defer(onerror, err, req, res)]. *)
Definition deferred_calls (onerror : JsValue Callback) (err : option Error)
  : list Effect :=
  match err with
  | Some e => if truthy onerror then [Defer onerror e] else []
  | None => []
  end.

(** The body each responder constructs, as a function of the world it is
    invoked in. *)
Definition body_part000 `{Collaborators} (cfg : Part000.Config) (req : Request)
           (err : option Error) (w : World) : Buffer :=
  let status := Part000.resolve_status (statusCode w) err in
  negotiate req status (Part000.resolve_message cfg req status err).

Definition body_index_js `{Collaborators} (cfg : IndexJs.Config) (req : Request)
           (err : option Error) (w : World) : Buffer :=
  let w1 := IndexJs.resolve_status err w in
  negotiate req (statusCode w1) (IndexJs.resolve_message cfg req err w1).

(** The default of the error branch: 500 unless the response already
    carries a status of 400 or more. *)
Definition default_status (current : Z) : Z :=
  if Z_lt_dec current 400 then 500 else current.

(** A call of the configurator threw. *)
Definition throws {A} (r : Result A) : Prop := exists e, r = Throw e.

(** An options bag whose [message] is the number 0, and one whose
    [message] is a string. *)
Definition zero_message : Options :=
  mkOptions (JNumber 0) JUndefined JUndefined JUndefined.

Definition string_message : Options :=
  mkOptions (JString "oops") JUndefined JUndefined JUndefined.

(** The listeners that the Node.js 0.8 branch of [unpipe] invokes: the
    ones a pipe has put on the [close] event. *)
Definition is_pipe_listener (name : string) : bool :=
  String.eqb name "cleanup" || String.eqb name "onclose".

(** A string without a newline character. *)
Fixpoint no_newline (s : string) : bool :=
  match s with
  | EmptyString => true
  | String c rest => negb (Ascii.eqb c LF) && no_newline rest
  end.

(** A string without two adjacent spaces. *)
Fixpoint no_double_space (s : string) : bool :=
  match s with
  | EmptyString => true
  | String c rest =>
      match rest with
      | EmptyString => true
      | String d _ =>
          negb (Ascii.eqb c " " && Ascii.eqb d " ") && no_double_space rest
      end
  end.



(** The layout of the HTML message as the documentation words it, in one
    pass from left to right: a newline becomes a line break, two adjacent
    spaces become a space and a non-breaking space, every other character
    is copied. *)
Fixpoint layout_one_pass (s : string) : string :=
  match s with
  | EmptyString => EmptyString
  | String c rest =>
      if Ascii.eqb c LF then "<br>" ++ layout_one_pass rest
      else
        match rest with
        | String d rest' =>
            if Ascii.eqb c " " && Ascii.eqb d " "
            then " &nbsp;" ++ layout_one_pass rest'
            else String c (layout_one_pass rest)
        | EmptyString => String c EmptyString
        end
  end.

(** The scheduled [onerror] calls among some effects. *)
Definition is_defer (e : Effect) : bool :=
  match e with
  | Defer _ _ => true
  | _ => false
  end.

Definition scheduled (w : World) : list Effect := List.filter is_defer (effects w).

(** An error object with a stack of two lines and a name. *)
Definition stack_error : Error :=
  mkError (Some 503) (Some "db down")
          (Some ("Error: db down" ++ nl ++ "    at query (db.js:7:3)"))
          (Some "DbError") "DbError: db down".

(** A [message] option in function shape: it shows the status only. *)
Definition status_only : MessageFn := fun _ status =>
  if status =? 503 then Some "try later" else None.



(** The second example of the spec: GET /missing from a browser. *)
Definition missing_request : Request :=
  mkRequest "GET" "/missing" None (Some "text/html") false true [].

(** A request over the old stream interface, with a pipe's listeners and
    one of the application on [close]. *)
Definition old_stream_request : Request :=
  mkRequest "GET" "/x" None (Some "text/plain") true false
            ["cleanup"; "audit"; "onclose"].

(* ===================================================================== *)
(** ** Concrete collaborators, for examples *)
(* ===================================================================== *)

(** The reason phrases of Node's [http.STATUS_CODES] that the examples
    use. *)
Definition node_STATUS_CODES (status : Z) : option string :=
  match status with
  | 200 => Some "OK"
  | 400 => Some "Bad Request"
  | 401 => Some "Unauthorized"
  | 403 => Some "Forbidden"
  | 404 => Some "Not Found"
  | 500 => Some "Internal Server Error"
  | 501 => Some "Not Implemented"
  | 503 => Some "Service Unavailable"
  | _ => None
  end.

(** A stand-in for the negotiator: the Accept header names the type
    outright. *)
Definition simple_accepts (req : Request) (types : list string) : option string :=
  match accept_header req with
  | Some h =>
      if String.eqb h "text/html" then Some "html"
      else if String.eqb h "text/plain" then Some "text"
      else None
  | None => Some "html"
  end.

Definition node : Collaborators :=
  {| STATUS_CODES := node_STATUS_CODES; accepts_types := simple_accepts |}.

Definition fresh_world : World := mkWorld 200 false ∅ [] [].

Definition get_request (m path : string) (acc : option string) (rd : bool) : Request :=
  mkRequest m path None acc rd true [].

(** A response that an earlier handler gave the status 503. *)
Definition world_503 : World := mkWorld 503 false ∅ [] [].

(** A POST whose body nobody has read. *)
Definition post_request : Request :=
  mkRequest "POST" "/upload" (Some "/api/upload") (Some "text/plain") true true [].

(** The closures' captures for a call without options. *)
Definition part000_defaults : Part000.Config :=
  Part000.mkConfig (JBool false) JUndefined (JBool false).

Definition index_js_defaults : IndexJs.Config :=
  IndexJs.mkConfig (JString "development") JUndefined.

Definition plain_error (status : option Z) : Error :=
  mkError status (Some "boom") (Some ("Error: boom" ++ nl ++ "    at x.js:1:1"))
          (Some "Error") "Error: boom".

(** A response whose headers were sent: status 200 and a header table
    that a handler filled. *)
Definition committed_world : World :=
  mkWorld 200 true (<["Content-Type" := HString "text/html"]> ∅) []
          [SetHeader "Content-Type" (HString "text/html")].

(** A HEAD request whose stream has been read. *)
Definition head_request : Request :=
  mkRequest "HEAD" "/x" None (Some "text/plain") false true [].

(* ===================================================================== *)
(** ** Lemmas on strings *)
(* ===================================================================== *)

Module StringFacts.

Lemma append_cons (x : ascii) (a b : string) :
  String x a ++ b = String x (a ++ b).
Proof. reflexivity. Qed.

Lemma append_nil_l (a : string) : "" ++ a = a.
Proof. reflexivity. Qed.

Lemma append_assoc (a b c : string) : (a ++ b) ++ c = a ++ (b ++ c).
Proof.
  induction a as [|x a IH]; [reflexivity|].
  now rewrite !append_cons, IH.
Qed.



Lemma Contains_app_l (n a b : string) : Contains n a -> Contains n (a ++ b).
Proof.
  intros (pre & post & ->). exists pre, (post ++ b).
  now rewrite !append_assoc.
Qed.

Lemma Contains_app_r (n a b : string) : Contains n b -> Contains n (a ++ b).
Proof.
  intros (pre & post & ->). exists (a ++ pre), post.
  now rewrite !append_assoc.
Qed.


(** *** Escaping leaves safe text alone *)

Lemma escape_char_safe (c : ascii) :
  special c = false -> escape_char c = String c "".
Proof.
  unfold special, escape_char. intros Hs.
  repeat (apply orb_false_elim in Hs; destruct Hs as [Hs ?]).
  now repeat match goal with E : Ascii.eqb _ _ = false |- _ => rewrite E; clear E end.
Qed.

Lemma escapeHtml_safe (s : string) : safe_text s = true -> escapeHtml s = s.
Proof.
  induction s as [|c s IH]; cbn [safe_text escapeHtml]; [reflexivity|].
  intros Hs. apply andb_prop in Hs as [Hc Hrest].
  apply negb_true_iff in Hc.
  rewrite (escape_char_safe c Hc), (IH Hrest). reflexivity.
Qed.

Lemma escapeHtml_app (a b : string) :
  escapeHtml (a ++ b) = escapeHtml a ++ escapeHtml b.
Proof.
  induction a as [|c a IH]; [reflexivity|].
  rewrite append_cons. cbn [escapeHtml].
  now rewrite IH, append_assoc.
Qed.

Lemma replace_newlines_app (a b : string) :
  replace_newlines (a ++ b) = replace_newlines a ++ replace_newlines b.
Proof.
  induction a as [|c a IH]; [reflexivity|].
  rewrite append_cons. cbn [replace_newlines].
  destruct (Ascii.eqb c LF); rewrite IH.
  - now rewrite append_assoc.
  - now rewrite append_cons.
Qed.

(** *** No less-than sign survives escaping *)

Lemma no_lt_app (a b : string) : no_lt (a ++ b) = no_lt a && no_lt b.
Proof.
  induction a as [|c a IH]; [reflexivity|].
  rewrite append_cons. cbn [no_lt].
  now rewrite IH, andb_assoc.
Qed.

Lemma escape_char_no_lt (c : ascii) : no_lt (escape_char c) = true.
Proof.
  unfold escape_char.
  destruct (Ascii.eqb c "&"); [reflexivity|].
  destruct (Ascii.eqb c DQUOTE); [reflexivity|].
  destruct (Ascii.eqb c "'"); [reflexivity|].
  destruct (Ascii.eqb c "<") eqn:E; [reflexivity|].
  destruct (Ascii.eqb c ">"); [reflexivity|].
  cbn [no_lt]. now rewrite E.
Qed.

Lemma escapeHtml_no_lt (s : string) : no_lt (escapeHtml s) = true.
Proof.
  induction s as [|c s IH]; [reflexivity|].
  cbn [escapeHtml]. now rewrite no_lt_app, escape_char_no_lt, IH.
Qed.

Lemma no_lt_tame (s : string) : no_lt s = true -> tame s = true.
Proof.
  induction s as [|c s IH]; [reflexivity|].
  cbn [no_lt tame].
  intros Hs. apply andb_prop in Hs as [Hc Hrest].
  apply negb_true_iff in Hc. rewrite Hc. auto.
Qed.

Lemma tame_app (a b : string) :
  tame a = true -> tame b = true -> tame (a ++ b) = true.
Proof.
  induction a as [|c a IH]; [auto|].
  rewrite append_cons. cbn [tame].
  intros Ha Hb. destruct (Ascii.eqb c "<").
  - destruct a as [|d a']; [discriminate|].
    apply andb_prop in Ha as [Hd Ha].
    specialize (IH Ha Hb). rewrite append_cons in *.
    now rewrite Hd, IH.
  - auto.
Qed.

Lemma tame_suffix (a b : string) : tame (a ++ b) = true -> tame b = true.
Proof.
  induction a as [|c a IH]; [auto|].
  rewrite append_cons. cbn [tame].
  destruct (Ascii.eqb c "<"); [|exact IH].
  destruct (a ++ b) eqn:E; [discriminate|].
  intros Hab. apply andb_prop in Hab as [_ Hab]. auto.
Qed.

Lemma tame_no_script (s : string) :
  tame s = true -> ~ Contains "<script>" s.
Proof.
  intros Hs (pre & post & ->). apply tame_suffix in Hs. discriminate Hs.
Qed.

Lemma replace_newlines_tame (s : string) :
  no_lt s = true -> tame (replace_newlines s) = true.
Proof.
  induction s as [|c s IH]; [reflexivity|].
  cbn [no_lt replace_newlines].
  intros Hs. apply andb_prop in Hs as [Hc Hrest].
  apply negb_true_iff in Hc.
  destruct (Ascii.eqb c LF).
  - apply (tame_app "<br>"); [reflexivity | auto].
  - cbn [tame]. rewrite Hc. auto.
Qed.

(** *** The replacement of pairs of spaces *)

Lemma replace_double_spaces_pair (r : string) :
  replace_double_spaces (String " " (String " " r))
  = " &nbsp;" ++ replace_double_spaces r.
Proof. reflexivity. Qed.

Lemma replace_double_spaces_other (c d : ascii) (r : string) :
  Ascii.eqb c " " && Ascii.eqb d " " = false ->
  replace_double_spaces (String c (String d r))
  = String c (replace_double_spaces (String d r)).
Proof. intros E. cbn [replace_double_spaces]. now rewrite E. Qed.

Lemma replace_double_spaces_head (c : ascii) (r : string) :
  exists r', replace_double_spaces (String c r) = String c r'.
Proof.
  destruct r as [|d r]; [now eexists|].
  destruct (Ascii.eqb c " " && Ascii.eqb d " ") eqn:E.
  - apply andb_prop in E as [Ec Ed].
    apply Ascii.eqb_eq in Ec, Ed. subst c d.
    rewrite replace_double_spaces_pair. now eexists.
  - rewrite (replace_double_spaces_other _ _ _ E). now eexists.
Qed.

Lemma replace_double_spaces_cons (c : ascii) (r : string) :
  Ascii.eqb c " " = false ->
  replace_double_spaces (String c r) = String c (replace_double_spaces r).
Proof.
  intros Ec. destruct r as [|d r]; [reflexivity|].
  apply replace_double_spaces_other. now rewrite Ec.
Qed.

Lemma replace_double_spaces_tame_aux (s : string) :
  (tame s = true -> tame (replace_double_spaces s) = true)
  /\ (forall c, tame (String c s) = true ->
                tame (replace_double_spaces (String c s)) = true).
Proof.
  induction s as [|d r [IH1 IH2]].
  - split; [reflexivity | intros c Hc; exact Hc].
  - assert (H1 : tame (String d r) = true ->
                 tame (replace_double_spaces (String d r)) = true)
      by apply IH2.
    split; [exact H1|].
    intros c Hc.
    destruct (Ascii.eqb c " " && Ascii.eqb d " ") eqn:Esp.
    + apply andb_prop in Esp as [Ec Ed].
      apply Ascii.eqb_eq in Ec, Ed. subst c d.
      rewrite replace_double_spaces_pair.
      apply (tame_app " &nbsp;"); [reflexivity|].
      apply IH1. exact Hc.
    + rewrite (replace_double_spaces_other _ _ _ Esp).
      destruct (replace_double_spaces_head d r) as [r' Er'].
      cbn [tame] in Hc. cbn [tame].
      destruct (Ascii.eqb c "<").
      * apply andb_prop in Hc as [Hd Hc].
        specialize (H1 Hc). rewrite Er' in *. rewrite Hd. exact H1.
      * apply H1. exact Hc.
Qed.

Lemma replace_double_spaces_tame (s : string) :
  tame s = true -> tame (replace_double_spaces s) = true.
Proof. apply replace_double_spaces_tame_aux. Qed.

(** A prefix and a suffix are rewritten independently when the suffix
    does not begin with a space. *)
Lemma replace_double_spaces_app_aux (c : ascii) (y : string) (a : string) :
  Ascii.eqb c " " = false ->
  replace_double_spaces (a ++ String c y)
  = replace_double_spaces a ++ replace_double_spaces (String c y)
  /\ forall x, replace_double_spaces (String x a ++ String c y)
               = replace_double_spaces (String x a)
                 ++ replace_double_spaces (String c y).
Proof.
  intros Ec. induction a as [|d r [IH1 IH2]].
  - split; [reflexivity|].
    intros x. rewrite append_cons, append_nil_l.
    rewrite replace_double_spaces_other by (now rewrite Ec, andb_false_r).
    reflexivity.
  - assert (H1 : replace_double_spaces (String d r ++ String c y)
                 = replace_double_spaces (String d r)
                   ++ replace_double_spaces (String c y)) by apply IH2.
    split; [exact H1|].
    intros x. rewrite (append_cons x).
    destruct (Ascii.eqb x " " && Ascii.eqb d " ") eqn:Esp.
    + apply andb_prop in Esp as [Ex Ed].
      apply Ascii.eqb_eq in Ex, Ed. subst x d.
      rewrite append_cons, !replace_double_spaces_pair, IH1.
      now rewrite append_assoc.
    + rewrite (append_cons d).
      rewrite (replace_double_spaces_other x d _ Esp).
      rewrite <- (append_cons d), H1.
      rewrite (replace_double_spaces_other x d r Esp).
      now rewrite append_cons.
Qed.

Lemma replace_double_spaces_app (a : string) (c : ascii) (y : string) :
  Ascii.eqb c " " = false ->
  replace_double_spaces (a ++ String c y)
  = replace_double_spaces a ++ replace_double_spaces (String c y).
Proof. intros Ec. now apply replace_double_spaces_app_aux. Qed.

End StringFacts.

(* ===================================================================== *)
(** ** Lemmas on the transmitter *)
(* ===================================================================== *)

Module TransmitterFacts.

Lemma write_eq (req : Request) (status : Z) (body : Buffer) (w : World) :
  write req status body w
  = mkWorld status (header_sent w) (write_headers body (headers w))
            (end_once w) (effects w ++ write_calls req body)%list.
Proof.
  unfold write, write_calls, write_headers, setHeader, perform, set_statusCode.
  destruct (String.eqb (method req) "HEAD"); cbn;
    now rewrite <- !app_assoc.
Qed.

Lemma writes_app (w : World) (es : list Effect) :
  List.filter is_write (effects w ++ es)%list
  = (writes w ++ List.filter is_write es)%list.
Proof. unfold writes. apply List.filter_app. Qed.

Lemma ends_app (es es' : list Effect) :
  ends (es ++ es')%list = (ends es ++ ends es')%list.
Proof.
  induction es as [|e es IH]; [reflexivity|].
  destruct e; cbn; now rewrite ?IH.
Qed.

(** [unpipe] touches neither the response nor the [end] listeners. *)
Lemma call_pipe_listeners_frame (ls : list string) (w : World) :
  let w' := call_pipe_listeners ls w in
  statusCode w' = statusCode w /\ header_sent w' = header_sent w
  /\ headers w' = headers w /\ end_once w' = end_once w
  /\ writes w' = writes w /\ ends (effects w') = ends (effects w).
Proof.
  revert w. induction ls as [|name ls IH]; intros w; cbn; [tauto|].
  destruct (negb (String.eqb name "cleanup") && negb (String.eqb name "onclose")).
  - apply IH.
  - destruct (IH (perform (CallListener name) w)) as (A & B & C & D & E & F).
    cbn in *. rewrite A, B, C, D, E, F.
    unfold writes. cbn. rewrite List.filter_app, ends_app. cbn.
    now rewrite !app_nil_r.
Qed.

Lemma unpipe_frame (req : Request) (w : World) :
  let w' := unpipe req w in
  statusCode w' = statusCode w /\ header_sent w' = header_sent w
  /\ headers w' = headers w /\ end_once w' = end_once w
  /\ writes w' = writes w /\ ends (effects w') = ends (effects w).
Proof.
  unfold unpipe. destruct (has_unpipe req).
  - cbn. unfold writes. cbn. rewrite List.filter_app, ends_app. cbn.
    now rewrite !app_nil_r.
  - apply call_pipe_listeners_frame.
Qed.

Lemma drain_frame (req : Request) (w : World) :
  let w' := drain req w in
  statusCode w' = statusCode w /\ header_sent w' = header_sent w
  /\ headers w' = headers w /\ end_once w' = end_once w
  /\ writes w' = writes w /\ ends (effects w') = ends (effects w).
Proof.
  unfold drain. destruct (readable req); [|cbn; tauto].
  destruct (unpipe_frame req w) as (A & B & C & D & E & F).
  cbn in *. rewrite A, B, C, D, <- E, <- F.
  unfold writes. cbn. rewrite List.filter_app, ends_app. cbn.
  now rewrite !app_nil_r.
Qed.

(** While the stream is readable, [send] only registers [write]. *)
Lemma send_readable (req : Request) (status : Z) (body : Buffer) (w : World) :
  readable req = true ->
  send req status body w
  = mkWorld (statusCode (drain req w)) (header_sent (drain req w))
            (headers (drain req w))
            (end_once (drain req w) ++ [mkWrite req status body])%list
            (effects (drain req w)).
Proof. intros Hr. unfold send, drain. rewrite Hr. reflexivity. Qed.

Lemma send_drained (req : Request) (status : Z) (body : Buffer) (w : World) :
  readable req = false ->
  send req status body w = write req status body w.
Proof. intros Hr. unfold send. now rewrite Hr. Qed.

(** Running the listeners leaves none registered. *)
Lemma run_writes_end_once (fns : list Write) (w : World) :
  end_once (fold_left (fun acc fn => run_write fn acc) fns w) = end_once w.
Proof.
  revert w. induction fns as [|fn fns IH]; intros w; [reflexivity|].
  cbn. rewrite IH. unfold run_write. now rewrite write_eq.
Qed.

Lemma emit_end_clears (w : World) : end_once (emit_end w) = [].
Proof. unfold emit_end. now rewrite run_writes_end_once. Qed.

(** An [end] event with no listener registered changes nothing. *)
Lemma emit_end_idle (w : World) : end_once w = [] -> emit_end w = w.
Proof. intros E. unfold emit_end. rewrite E. destruct w; cbn in *; now subst. Qed.

Lemma emit_end_twice (w : World) : emit_end (emit_end w) = emit_end w.
Proof. apply emit_end_idle, emit_end_clears. Qed.

(** The listener registered last runs last. *)
Lemma emit_end_once_end (fn : Write) (w : World) :
  emit_end (once_end fn w) = run_write fn (emit_end w).
Proof. unfold emit_end, once_end. cbn. now rewrite fold_left_app. Qed.

(** [send], followed by the end of the stream where it was awaited, is
    [write] on the drained stream. *)
Lemma settle_send (req : Request) (status : Z) (body : Buffer) (w : World) :
  end_once w = [] ->
  settle req (send req status body w) = write req status body (drain req w).
Proof.
  intros E. unfold settle, drain, send.
  destruct (readable req); [|reflexivity]. cbn [negb].
  destruct (unpipe_frame req w) as (_ & _ & _ & D & _).
  unfold emit_end. cbn. rewrite D, E. cbn.
  unfold run_write. cbn. rewrite !write_eq. cbn. now rewrite D, E.
Qed.

End TransmitterFacts.

(* ===================================================================== *)
(** ** Lemmas on the two responders *)
(* ===================================================================== *)

Module ResponderFacts.
Import TransmitterFacts.

Section Facts.
Context `{Collaborators}.

Lemma schedule_part000 onerror err (w : World) :
  Part000.schedule_onerror onerror err w
  = mkWorld (statusCode w) (header_sent w) (headers w) (end_once w)
            (effects w ++ deferred_calls onerror err)%list.
Proof.
  unfold Part000.schedule_onerror, deferred_calls.
  destruct err as [e|]; [destruct (truthy onerror)|]; cbn;
    rewrite ?app_nil_r; now destruct w.
Qed.

Lemma schedule_index_js onerror err (w : World) :
  IndexJs.schedule_onerror onerror err w
  = mkWorld (statusCode w) (header_sent w) (headers w) (end_once w)
            (effects w ++ deferred_calls onerror err)%list.
Proof.
  unfold IndexJs.schedule_onerror, deferred_calls.
  destruct err as [e|]; [destruct (truthy onerror)|]; cbn;
    rewrite ?app_nil_r; now destruct w.
Qed.

Lemma deferred_not_written onerror err :
  List.filter is_write (deferred_calls onerror err) = []
  /\ ends (deferred_calls onerror err) = [].
Proof.
  unfold deferred_calls.
  destruct err; [destruct (truthy onerror)|]; now cbn.
Qed.

(** [resolve_status] of [index.js] assigns [res.statusCode] only. *)
Lemma resolve_index_js err (w : World) :
  IndexJs.resolve_status err w
  = mkWorld (statusCode (IndexJs.resolve_status err w)) (header_sent w)
            (headers w) (end_once w) (effects w).
Proof.
  unfold IndexJs.resolve_status.
  destruct err as [e|]; [|reflexivity].
  destruct (negb (truthy_number (statusCode w)) || (statusCode w <? 400));
    destruct (err_status e) as [n|]; try destruct (truthy_number n);
    cbn; now destruct w.
Qed.

(** The two paths of [part_000]'s responder. *)
Lemma part000_committed cfg req err (w : World) :
  header_sent w = true ->
  Part000.responder cfg req err w
  = mkWorld (statusCode w) true (headers w) (end_once w)
      (effects w ++ deferred_calls (Part000.cfg_onerror cfg) err ++ [Destroy])%list.
Proof.
  intros Hs. unfold Part000.responder.
  rewrite schedule_part000. cbn. rewrite Hs. unfold perform. cbn.
  now rewrite <- app_assoc.
Qed.

Lemma part000_open cfg req err (w : World) :
  header_sent w = false ->
  Part000.responder cfg req err w
  = send req (Part000.resolve_status (statusCode w) err)
         (body_part000 cfg req err w)
         (Part000.schedule_onerror (Part000.cfg_onerror cfg) err w).
Proof.
  intros Hs. unfold Part000.responder.
  rewrite schedule_part000. cbn. now rewrite Hs.
Qed.

(** The two paths of [index.js]'s responder. *)
Lemma index_js_committed cfg req err (w : World) :
  header_sent w = true ->
  IndexJs.responder cfg req err w
  = mkWorld (statusCode (IndexJs.resolve_status err w)) true (headers w)
      (end_once w)
      (effects w ++ deferred_calls (IndexJs.cfg_onerror cfg) err ++ [Destroy])%list.
Proof.
  intros Hs. unfold IndexJs.responder.
  rewrite schedule_index_js.
  pose proof (resolve_index_js err w) as E.
  destruct (IndexJs.resolve_status err w) as [s hs h eo ef].
  cbn in *. injection E as -> -> -> ->.
  rewrite Hs. unfold perform. cbn.
  now rewrite <- app_assoc.
Qed.

Lemma index_js_open cfg req err (w : World) :
  header_sent w = false ->
  IndexJs.responder cfg req err w
  = send req (statusCode (IndexJs.resolve_status err w))
         (body_index_js cfg req err w)
         (IndexJs.schedule_onerror (IndexJs.cfg_onerror cfg) err
            (IndexJs.resolve_status err w)).
Proof.
  intros Hs. unfold IndexJs.responder, body_index_js.
  rewrite schedule_index_js.
  pose proof (resolve_index_js err w) as E.
  destruct (IndexJs.resolve_status err w) as [s hs h eo ef].
  cbn in *. injection E as -> -> -> ->.
  now rewrite Hs.
Qed.

(** The status [write] assigns is there once the stream has ended,
    whatever other listeners were pending. *)
Lemma settle_send_status req status body (w : World) :
  statusCode (settle req (send req status body w)) = status.
Proof.
  unfold settle, send. destruct (readable req); cbn [negb].
  - change (perform Resume (once_end (mkWrite req status body) (unpipe req w)))
      with (once_end (mkWrite req status body) (perform Resume (unpipe req w))).
    rewrite emit_end_once_end. unfold run_write. now rewrite write_eq.
  - now rewrite write_eq.
Qed.

End Facts.

End ResponderFacts.

(* ===================================================================== *)
(** ** Status resolution *)
(* ===================================================================== *)

Module StatusFacts.

Lemma in_4xx_5xx_iff (o : option Z) :
  Part000.in_4xx_5xx o = true <-> exists n, o = Some n /\ 400 <= n < 600.
Proof.
  unfold Part000.in_4xx_5xx. destruct o as [n|].
  - split.
    + intros E. apply andb_prop in E as [A B]. exists n. split; [reflexivity|lia].
    + intros (m & [= <-] & A). apply andb_true_intro. split; lia.
  - split; [discriminate | intros (n & [=] & _)].
Qed.

Lemma default_guard (current : Z) :
  (if negb (truthy_number current) || (current <? 400) then 500 else current)
  = default_status current.
Proof.
  unfold default_status, truthy_number.
  destruct (Z_lt_dec current 400) as [L|L].
  - replace (current <? 400) with true by lia. now rewrite orb_true_r.
  - replace (current <? 400) with false by lia.
    replace (current =? 0) with false by lia. reflexivity.
Qed.

Lemma part000_valid_status (current : Z) (e : Error) (s : Z) :
  err_status e = Some s -> 400 <= s <= 599 ->
  Part000.resolve_status current (Some e) = s.
Proof.
  intros Es Hs. unfold Part000.resolve_status. rewrite Es.
  replace (400 <=? s) with true by lia. replace (s <? 600) with true by lia.
  reflexivity.
Qed.

Lemma part000_other_status (current : Z) (e : Error) :
  Part000.in_4xx_5xx (err_status e) = false ->
  Part000.resolve_status current (Some e) = default_status current.
Proof.
  intros Es. unfold Part000.resolve_status, Part000.in_4xx_5xx in *.
  destruct (err_status e) as [n|]; [rewrite Es|]; apply default_guard.
Qed.

Lemma index_js_truthy_status (e : Error) (s : Z) (w : World) :
  err_status e = Some s -> s <> 0 ->
  statusCode (IndexJs.resolve_status (Some e) w) = s.
Proof.
  intros Es Hs. unfold IndexJs.resolve_status. rewrite Es.
  assert (truthy_number s = true) as ->
      by (unfold truthy_number; apply negb_true_iff; lia).
  reflexivity.
Qed.

Lemma index_js_falsy_status (e : Error) (w : World) :
  IndexJs.truthy_status (err_status e) = false ->
  statusCode (IndexJs.resolve_status (Some e) w) = default_status (statusCode w).
Proof.
  intros Es. unfold IndexJs.resolve_status, IndexJs.truthy_status in *.
  rewrite <- default_guard.
  destruct (err_status e) as [n|]; [rewrite Es|];
    now destruct (negb (truthy_number (statusCode w)) || (statusCode w <? 400)).
Qed.

End StatusFacts.

(* ===================================================================== *)
(** ** Occurrence, and text that the HTML builder leaves alone *)
(* ===================================================================== *)

Module OccurFacts.







(** With the stream still readable, the end of the stream runs the
    listeners registered before and then this [write]. *)
Lemma emit_end_send (req : Request) (status : Z) (body : Buffer) (w : World) :
  readable req = true ->
  emit_end (send req status body w)
  = write req status body (emit_end (drain req w)).
Proof.
  intros Hr. unfold send, drain. rewrite Hr. cbn [negb].
  change (perform Resume (once_end (mkWrite req status body) (unpipe req w)))
    with (once_end (mkWrite req status body) (perform Resume (unpipe req w))).
  now rewrite TransmitterFacts.emit_end_once_end.
Qed.

End OccurFacts.

(* ===================================================================== *)
(** ** The claims *)
(* ===================================================================== *)

(** C1.  When the responder is invoked with an error whose [status] is an
    integer from 400 to 599, that status is the one resolved and the one
    written to the response, whatever status the response carried
    before.  This holds in both variants: the status each resolves is
    [err.status], and once the response can be written (the headers were
    not sent, and the request stream has ended where it was still
    readable) [res.statusCode] is [err.status]. *)
Theorem C1_error_status_wins `{Collaborators}
        (cfg : Part000.Config) (cfg' : IndexJs.Config)
        (req : Request) (e : Error) (s : Z) (w : World) :
  err_status e = Some s ->
  400 <= s <= 599 ->
  header_sent w = false ->
  Part000.resolve_status (statusCode w) (Some e) = s
  /\ statusCode (IndexJs.resolve_status (Some e) w) = s
  /\ statusCode (settle req (Part000.responder cfg req (Some e) w)) = s
  /\ statusCode (settle req (IndexJs.responder cfg' req (Some e) w)) = s.
Proof.
  intros Es Hs Hw.
  pose proof (StatusFacts.part000_valid_status (statusCode w) e s Es Hs) as P.
  assert (s <> 0) as Hnz by lia.
  pose proof (StatusFacts.index_js_truthy_status e s w Es Hnz) as I.
  repeat split; [exact P | exact I | |].
  - rewrite (ResponderFacts.part000_open cfg req (Some e) w Hw).
    rewrite ResponderFacts.settle_send_status. exact P.
  - rewrite (ResponderFacts.index_js_open cfg' req (Some e) w Hw).
    rewrite ResponderFacts.settle_send_status. exact I.
Qed.

(** C1 at an error with status 404 on a response that carried 503. *)
Lemma C1_witness :
  err_status (plain_error (Some 404)) = Some 404
  /\ Part000.resolve_status (statusCode world_503) (Some (plain_error (Some 404))) = 404
  /\ statusCode (IndexJs.resolve_status (Some (plain_error (Some 404))) world_503) = 404
  /\ statusCode (settle post_request
                   (Part000.responder (H := node) part000_defaults post_request
                      (Some (plain_error (Some 404))) world_503)) = 404
  /\ statusCode (settle post_request
                   (IndexJs.responder (H := node) index_js_defaults post_request
                      (Some (plain_error (Some 404))) world_503)) = 404.
Proof.
  split; [reflexivity|].
  apply (C1_error_status_wins (H := node) part000_defaults index_js_defaults
           post_request (plain_error (Some 404)) 404 world_503);
    [reflexivity | lia | reflexivity].
Defined.

(** C2, on [src/index.js].  The guard there is [if (err.status)], not a
    range test: an error whose [status] is 302, outside 400..599, sets the
    response status to 302, where the claim (and the variant of
    [part_000], on the same input) gives 500. *)
Theorem C2_index_js_status_outside_range :
  statusCode (IndexJs.resolve_status (Some (plain_error (Some 302))) fresh_world) = 302
  /\ statusCode (settle (get_request "GET" "/x" (Some "text/plain") false)
                   (IndexJs.responder (H := node) index_js_defaults
                      (get_request "GET" "/x" (Some "text/plain") false)
                      (Some (plain_error (Some 302))) fresh_world)) = 302
  /\ statusCode (settle (get_request "GET" "/x" (Some "text/plain") false)
                   (Part000.responder (H := node) part000_defaults
                      (get_request "GET" "/x" (Some "text/plain") false)
                      (Some (plain_error (Some 302))) fresh_world)) = 500.
Proof. repeat split. Qed.

(** In [part_000] an error whose [status] is absent or outside 400..599
    resolves to 500, unless the response already carried a status of 400
    or more, which is kept; and that is the status written once the
    response can be written. *)
Theorem part000_default_status `{Collaborators}
        (cfg : Part000.Config) (req : Request) (e : Error) (w : World) :
  (forall n, err_status e = Some n -> n < 400 \/ 600 <= n) ->
  header_sent w = false ->
  Part000.resolve_status (statusCode w) (Some e)
  = (if Z_lt_dec (statusCode w) 400 then 500 else statusCode w)
  /\ statusCode (settle req (Part000.responder cfg req (Some e) w))
     = (if Z_lt_dec (statusCode w) 400 then 500 else statusCode w).
Proof.
  intros Hout Hw.
  assert (Part000.in_4xx_5xx (err_status e) = false) as Hr.
  { destruct (Part000.in_4xx_5xx (err_status e)) eqn:E; [|reflexivity].
    apply StatusFacts.in_4xx_5xx_iff in E as (n & En & Hn).
    destruct (Hout n En); lia. }
  pose proof (StatusFacts.part000_other_status (statusCode w) e Hr) as P.
  unfold default_status in P.
  split; [exact P|].
  rewrite (ResponderFacts.part000_open cfg req (Some e) w Hw).
  rewrite ResponderFacts.settle_send_status. exact P.
Qed.

Lemma part000_default_status_witness :
  Part000.resolve_status (statusCode fresh_world) (Some (plain_error (Some 302))) = 500
  /\ statusCode (settle post_request
                   (Part000.responder (H := node) part000_defaults post_request
                      (Some (plain_error (Some 302))) fresh_world)) = 500.
Proof.
  apply (part000_default_status (H := node) part000_defaults post_request
           (plain_error (Some 302)) fresh_world); [|reflexivity].
  intros n [= <-]. left. lia.
Defined.

(** C3.  When the headers of the response were sent already, the
    responder, in both variants, calls neither [res.setHeader] nor
    [res.end]: the header and body writes, the header table and the
    listeners of the request are as before, and the one thing done after
    the scheduling of [onerror] is [req.socket.destroy()]. *)
Theorem C3_committed_response_is_destroyed `{Collaborators}
        (cfg : Part000.Config) (cfg' : IndexJs.Config)
        (req : Request) (err : option Error) (w : World) :
  header_sent w = true ->
  (writes (Part000.responder cfg req err w) = writes w
   /\ headers (Part000.responder cfg req err w) = headers w
   /\ end_once (Part000.responder cfg req err w) = end_once w
   /\ effects (Part000.responder cfg req err w)
      = (effects w ++ deferred_calls (Part000.cfg_onerror cfg) err ++ [Destroy])%list)
  /\ (writes (IndexJs.responder cfg' req err w) = writes w
      /\ headers (IndexJs.responder cfg' req err w) = headers w
      /\ end_once (IndexJs.responder cfg' req err w) = end_once w
      /\ effects (IndexJs.responder cfg' req err w)
         = (effects w ++ deferred_calls (IndexJs.cfg_onerror cfg') err ++ [Destroy])%list).
Proof.
  intros Hw.
  rewrite (ResponderFacts.part000_committed cfg req err w Hw).
  rewrite (ResponderFacts.index_js_committed cfg' req err w Hw).
  unfold writes. cbn.
  rewrite !List.filter_app.
  destruct (ResponderFacts.deferred_not_written (Part000.cfg_onerror cfg) err) as [-> _].
  destruct (ResponderFacts.deferred_not_written (IndexJs.cfg_onerror cfg') err) as [-> _].
  cbn. rewrite !app_nil_r. repeat split.
Qed.

Lemma C3_witness :
  header_sent committed_world = true
  /\ effects (Part000.responder (H := node) part000_defaults post_request
                (Some (plain_error None)) committed_world)
     = [SetHeader "Content-Type" (HString "text/html"); Destroy]
  /\ effects (IndexJs.responder (H := node) index_js_defaults post_request
                (Some (plain_error None)) committed_world)
     = [SetHeader "Content-Type" (HString "text/html"); Destroy].
Proof.
  split; [reflexivity|].
  pose proof (C3_committed_response_is_destroyed (H := node)
                part000_defaults index_js_defaults post_request
                (Some (plain_error None)) committed_world eq_refl)
    as [(_ & _ & _ & P) (_ & _ & _ & I)].
  split; [exact P | exact I].
Defined.




(** C5 as stated fails where the status has no reason phrase.  The
    status 499 is one an error can carry ([err.status] within 400..599)
    and [http.STATUS_CODES] has no entry for it: the title of the HTML
    document is then the word undefined, the string form of the missing
    entry, and so is the message that the default configuration derives
    from the status. *)
Lemma C5_counterexample :
  STATUS_CODES (Collaborators := node) 499 = None
  /\ Part000.resolve_status (statusCode fresh_world)
       (Some (plain_error (Some 499))) = 499
  /\ ends (effects (Part000.responder (H := node) part000_defaults missing_request
                      (Some (plain_error (Some 499))) fresh_world))
     = [Some (mkBuffer
                ("<!doctype html>" ++ nl ++ "<html lang=en>" ++ nl
                 ++ "<head>" ++ nl ++ "<meta charset=utf-8>" ++ nl
                 ++ "<title>undefined</title>" ++ nl ++ "</head>" ++ nl
                 ++ "<body>" ++ nl ++ "undefined" ++ nl
                 ++ "</body>" ++ nl)
                "text/html; charset=utf-8")].
Proof. repeat split. Qed.

(** C5, amended.  When the negotiation of [html] against [text] selects
    [html], the body has the content type [text/html; charset=utf-8] and
    is the fixed document around two variable parts: the title, which is
    the HTML-escaped string form of the entry of the status in
    [http.STATUS_CODES] (the reason phrase when the status has one, the
    word undefined when it has none), and the escaped message.  For
    every other outcome, none acceptable included, and for every status,
    the body has the content type [text/plain; charset=utf-8] and is the
    message followed by one newline.  (A message that is [undefined]
    reads as the word undefined, as string conversion has it.) *)
Theorem C5_negotiated_body `{Collaborators}
        (req : Request) (status : Z) (message : option string) :
  (accepts_types req ["html"; "text"] = Some "html" ->
   type (negotiate req status message) = "text/html; charset=utf-8"
   /\ bytes (negotiate req status message)
      = "<!doctype html>" ++ nl
        ++ "<html lang=en>" ++ nl
        ++ "<head>" ++ nl
        ++ "<meta charset=utf-8>" ++ nl
        ++ "<title>" ++ escapeHtml (to_str (STATUS_CODES status)) ++ "</title>" ++ nl
        ++ "</head>" ++ nl
        ++ "<body>" ++ nl
        ++ replace_double_spaces (replace_newlines (escapeHtml (to_str message))) ++ nl
        ++ "</body>" ++ nl
   /\ (forall phrase, STATUS_CODES status = Some phrase ->
                      escapeHtml (to_str (STATUS_CODES status)) = escapeHtml phrase)
   /\ (STATUS_CODES status = None ->
       escapeHtml (to_str (STATUS_CODES status)) = "undefined"))
  /\ (accepts_types req ["html"; "text"] <> Some "html" ->
      type (negotiate req status message) = "text/plain; charset=utf-8"
      /\ bytes (negotiate req status message) = to_str message ++ nl
      /\ (forall m, message = Some m ->
                    bytes (negotiate req status message) = m ++ nl)).
Proof.
  unfold negotiate. split.
  - intros ->. change (String.eqb "html" "html") with true. cbn iota.
    split; [reflexivity|]. split; [reflexivity|].
    split; [intros phrase ->; reflexivity | intros ->; reflexivity].
  - intros Hn.
    assert ((match accepts_types req ["html"; "text"] with
             | Some t => if String.eqb t "html"
                         then constructHtmlBody else constructTextBody
             | None => constructTextBody
             end) = constructTextBody) as ->.
    { destruct (accepts_types req ["html"; "text"]) as [t|]; [|reflexivity].
      destruct (String.eqb t "html") eqn:E; [|reflexivity].
      apply String.eqb_eq in E. now subst t. }
    split; [reflexivity|]. split; [reflexivity|].
    intros m ->. reflexivity.
Qed.

(** C5 at the first example of the spec, an error with status 404 and
    [Accept: text/plain], and at the same status for a browser. *)
Lemma C5_witness :
  (type (negotiate (H := node) (get_request "GET" "/x" (Some "text/html") false)
           404 (Some "Not Found")) = "text/html; charset=utf-8"
   /\ escapeHtml (to_str (STATUS_CODES (Collaborators := node) 404))
      = escapeHtml "Not Found")
  /\ (type (negotiate (H := node) (get_request "GET" "/x" (Some "text/plain") false)
              404 (Some "Not Found")) = "text/plain; charset=utf-8"
      /\ bytes (negotiate (H := node) (get_request "GET" "/x" (Some "text/plain") false)
                  404 (Some "Not Found"))
         = "Not Found" ++ nl).
Proof.
  split.
  - pose proof (C5_negotiated_body (H := node)
                  (get_request "GET" "/x" (Some "text/html") false) 404
                  (Some "Not Found")) as [Hhtml _].
    destruct (Hhtml eq_refl) as (T & _ & P & _).
    split; [exact T | exact (P "Not Found" eq_refl)].
  - pose proof (C5_negotiated_body (H := node)
                  (get_request "GET" "/x" (Some "text/plain") false) 404
                  (Some "Not Found")) as [_ Htext].
    assert (accepts_types (Collaborators := node)
              (get_request "GET" "/x" (Some "text/plain") false) ["html"; "text"]
            <> Some "html") as Hacc by discriminate.
    destruct (Htext Hacc) as (T & _ & B).
    split; [exact T | exact (B "Not Found" eq_refl)].
Defined.

(** C6.  For a request whose method is HEAD the transmitter ends the
    response without a payload.  Before that it sets the three headers:
    [X-Content-Type-Options: nosniff], [Content-Type] as the body
    carries it (the negotiated type), and [Content-Length], the number
    of bytes of the body that is not sent.  This is the write sequence
    whether it runs at once or when the request stream ends (no listener
    of an earlier invocation being registered on the stream). *)
Theorem C6_head_gets_no_body
        (req : Request) (status : Z) (body : Buffer) (w : World) :
  method req = "HEAD" ->
  end_once w = [] ->
  effects (settle req (send req status body w))
  = (effects (drain req w)
     ++ [ SetHeader "X-Content-Type-Options" (HString "nosniff");
          SetHeader "Content-Type" (HString (type body));
          SetHeader "Content-Length" (HNumber (Z.of_nat (String.length (bytes body))));
          End None ])%list
  /\ ends (effects (settle req (send req status body w)))
     = (ends (effects w) ++ [None])%list
  /\ headers (settle req (send req status body w)) !! "X-Content-Type-Options"
     = Some (HString "nosniff")
  /\ headers (settle req (send req status body w)) !! "Content-Type"
     = Some (HString (type body))
  /\ headers (settle req (send req status body w)) !! "Content-Length"
     = Some (HNumber (Z.of_nat (String.length (bytes body)))).
Proof.
  intros Hm He.
  rewrite (TransmitterFacts.settle_send req status body w He).
  rewrite TransmitterFacts.write_eq. cbn.
  unfold write_calls, write_headers, buffer_length. rewrite Hm. cbn.
  destruct (TransmitterFacts.drain_frame req w) as (_ & _ & _ & _ & _ & F).
  repeat split.
  - rewrite TransmitterFacts.ends_app, F. reflexivity.
  - rewrite lookup_insert_ne by discriminate.
    rewrite lookup_insert_ne by discriminate.
    apply lookup_insert_eq.
  - rewrite lookup_insert_ne by discriminate. apply lookup_insert_eq.
  - apply lookup_insert_eq.
Qed.

Lemma C6_witness :
  method head_request = "HEAD"
  /\ ends (effects (settle head_request
                      (send head_request 404
                            (constructTextBody 404 (Some "Not Found"))
                            fresh_world)))
     = [None]
  /\ headers (settle head_request
                (send head_request 404
                      (constructTextBody 404 (Some "Not Found"))
                      fresh_world)) !! "Content-Length"
     = Some (HNumber 10).
Proof.
  split; [reflexivity|].
  pose proof (C6_head_gets_no_body head_request 404
                (constructTextBody 404 (Some "Not Found"))
                fresh_world eq_refl eq_refl) as (_ & E & _ & _ & L).
  split; [exact E | exact L].
Defined.

(** C7 as stated fails on [index.js] for the status: invoked without an
    error on a request whose stream is still readable, its responder has
    assigned 404 to [res.statusCode] at once, while [write] still waits
    for the end of the stream and no header or body has been written. *)
Lemma C7_counterexample :
  readable post_request = true
  /\ statusCode fresh_world = 200
  /\ statusCode (IndexJs.responder (H := node) index_js_defaults post_request
                   None fresh_world) = 404
  /\ writes (IndexJs.responder (H := node) index_js_defaults post_request
               None fresh_world) = []
  /\ end_once (IndexJs.responder (H := node) index_js_defaults post_request
                 None fresh_world)
     = [mkWrite post_request 404
          (negotiate (H := node) post_request 404
             (Some (cannot_message post_request)))].
Proof. repeat split. Qed.

(** C7, amended.  When the responder is invoked while the request stream
    is still readable (and the headers were not sent), no header and no
    body is written before the stream ends: the header table and the
    list of header and body writes are as they were, and [write] sits
    registered, after the listeners registered before, as a one-shot
    listener of [end].  In [part_000] the status of the response is
    untouched as well; [index.js] has assigned the resolved status to
    [res.statusCode] already.  When [end] is emitted the write sequence
    of the invocation runs, once, after the listeners registered before;
    a further [end] finds no listener and writes nothing.  The same holds
    of the transmitter [send] for every status and body. *)
Theorem C7_write_waits_for_end `{Collaborators}
        (cfg : Part000.Config) (cfg' : IndexJs.Config)
        (req : Request) (err : option Error)
        (status : Z) (body : Buffer) (w : World) :
  readable req = true ->
  header_sent w = false ->
  (statusCode (send req status body w) = statusCode w
   /\ headers (send req status body w) = headers w
   /\ writes (send req status body w) = writes w
   /\ end_once (send req status body w)
      = (end_once w ++ [mkWrite req status body])%list
   /\ emit_end (send req status body w)
      = write req status body (emit_end (drain req w))
   /\ writes (emit_end (send req status body w))
      = (writes (emit_end (drain req w)) ++ write_calls req body)%list
   /\ emit_end (emit_end (send req status body w))
      = emit_end (send req status body w))
  /\ (statusCode (Part000.responder cfg req err w) = statusCode w
      /\ headers (Part000.responder cfg req err w) = headers w
      /\ writes (Part000.responder cfg req err w) = writes w
      /\ end_once (Part000.responder cfg req err w)
         = (end_once w
            ++ [mkWrite req (Part000.resolve_status (statusCode w) err)
                        (body_part000 cfg req err w)])%list
      /\ emit_end (Part000.responder cfg req err w)
         = write req (Part000.resolve_status (statusCode w) err)
                 (body_part000 cfg req err w)
                 (emit_end (drain req (Part000.schedule_onerror
                                         (Part000.cfg_onerror cfg) err w)))
      /\ emit_end (emit_end (Part000.responder cfg req err w))
         = emit_end (Part000.responder cfg req err w))
  /\ (statusCode (IndexJs.responder cfg' req err w)
      = statusCode (IndexJs.resolve_status err w)
      /\ headers (IndexJs.responder cfg' req err w) = headers w
      /\ writes (IndexJs.responder cfg' req err w) = writes w
      /\ end_once (IndexJs.responder cfg' req err w)
         = (end_once w
            ++ [mkWrite req (statusCode (IndexJs.resolve_status err w))
                        (body_index_js cfg' req err w)])%list
      /\ emit_end (IndexJs.responder cfg' req err w)
         = write req (statusCode (IndexJs.resolve_status err w))
                 (body_index_js cfg' req err w)
                 (emit_end (drain req (IndexJs.schedule_onerror
                                         (IndexJs.cfg_onerror cfg') err
                                         (IndexJs.resolve_status err w))))
      /\ emit_end (emit_end (IndexJs.responder cfg' req err w))
         = emit_end (IndexJs.responder cfg' req err w)).
Proof.
  intros Hr Hw.
  assert (Hsend : forall s b w0,
             statusCode (send req s b w0) = statusCode w0
             /\ headers (send req s b w0) = headers w0
             /\ writes (send req s b w0) = writes w0
             /\ end_once (send req s b w0) = (end_once w0 ++ [mkWrite req s b])%list
             /\ emit_end (send req s b w0) = write req s b (emit_end (drain req w0))
             /\ writes (emit_end (send req s b w0))
                = (writes (emit_end (drain req w0)) ++ write_calls req b)%list
             /\ emit_end (emit_end (send req s b w0)) = emit_end (send req s b w0)).
  { intros s b w0.
    destruct (TransmitterFacts.drain_frame req w0) as (A & _ & C & D & E & _).
    cbn zeta in *.
    pose proof (OccurFacts.emit_end_send req s b w0 Hr) as Ee.
    pose proof (TransmitterFacts.send_readable req s b w0 Hr) as Es.
    split; [rewrite Es; exact A|].
    split; [rewrite Es; exact C|].
    split; [rewrite Es; exact E|].
    split; [rewrite Es; cbn [end_once]; now rewrite D|].
    split; [exact Ee|].
    split; [|apply TransmitterFacts.emit_end_twice].
    rewrite Ee, TransmitterFacts.write_eq. unfold writes. cbn [effects].
    now rewrite List.filter_app. }
  split; [apply Hsend|]. split.
  - rewrite (ResponderFacts.part000_open cfg req err w Hw).
    destruct (Hsend (Part000.resolve_status (statusCode w) err)
                    (body_part000 cfg req err w)
                    (Part000.schedule_onerror (Part000.cfg_onerror cfg) err w))
      as (A & C & E & D & Ee & _ & I).
    rewrite A, C, E, D, Ee, <- Ee, I.
    rewrite ResponderFacts.schedule_part000. unfold writes.
    cbn [statusCode headers end_once effects]. rewrite List.filter_app.
    destruct (ResponderFacts.deferred_not_written (Part000.cfg_onerror cfg) err)
      as [-> _].
    rewrite app_nil_r. repeat split.
  - rewrite (ResponderFacts.index_js_open cfg' req err w Hw).
    destruct (Hsend (statusCode (IndexJs.resolve_status err w))
                    (body_index_js cfg' req err w)
                    (IndexJs.schedule_onerror (IndexJs.cfg_onerror cfg') err
                       (IndexJs.resolve_status err w)))
      as (A & C & E & D & Ee & _ & I).
    rewrite A, C, E, D, Ee, <- Ee, I.
    pose proof (ResponderFacts.resolve_index_js err w) as R.
    assert (headers (IndexJs.resolve_status err w) = headers w) as Rh
        by (rewrite R; reflexivity).
    assert (end_once (IndexJs.resolve_status err w) = end_once w) as Re
        by (rewrite R; reflexivity).
    assert (effects (IndexJs.resolve_status err w) = effects w) as Rf
        by (rewrite R; reflexivity).
    rewrite ResponderFacts.schedule_index_js. unfold writes.
    cbn [statusCode headers end_once effects]. rewrite List.filter_app, Rh, Re, Rf.
    destruct (ResponderFacts.deferred_not_written (IndexJs.cfg_onerror cfg') err)
      as [-> _].
    rewrite app_nil_r. repeat split.
Qed.

Lemma C7_witness :
  readable post_request = true
  /\ (statusCode (Part000.responder (H := node) part000_defaults post_request
                    None fresh_world) = statusCode fresh_world
      /\ writes (Part000.responder (H := node) part000_defaults post_request
                   None fresh_world) = writes fresh_world)
  /\ (statusCode (IndexJs.responder (H := node) index_js_defaults post_request
                    None fresh_world)
      = statusCode (IndexJs.resolve_status None fresh_world)
      /\ writes (IndexJs.responder (H := node) index_js_defaults post_request
                   None fresh_world) = writes fresh_world)
  /\ emit_end (emit_end (Part000.responder (H := node) part000_defaults
                           post_request None fresh_world))
     = emit_end (Part000.responder (H := node) part000_defaults
                   post_request None fresh_world).
Proof.
  split; [reflexivity|].
  pose proof (C7_write_waits_for_end (H := node) part000_defaults
                index_js_defaults post_request None 404
                (constructTextBody 404 (Some "Not Found")) fresh_world
                eq_refl eq_refl)
    as (_ & (Ps & _ & Pw & _ & _ & Pi) & (Is & _ & Iw & _)).
  split; [split; [exact Ps | exact Pw]|].
  split; [split; [exact Is | exact Iw]|]. exact Pi.
Defined.

(** C8.  The escaping of the HTML body builder leaves text alone that
    holds none of the five characters it rewrites, so that escaping such
    text twice is escaping it once.  And when a message contains the
    tag [<script>], the document built from it does not contain that
    tag: it contains the tag in its escaped form. *)
Theorem C8_escaping `{Collaborators}
        (s : string) (status : Z) (message : string) :
  safe_text s = true ->
  Contains "<script>" message ->
  (escapeHtml s = s /\ escapeHtml (escapeHtml s) = escapeHtml s)
  /\ ~ Contains "<script>" (bytes (constructHtmlBody status (Some message)))
  /\ Contains "&lt;script&gt;" (bytes (constructHtmlBody status (Some message))).
Proof.
  intros Hs Hm. split; [|split].
  - rewrite !(StringFacts.escapeHtml_safe s Hs). split; reflexivity.
  - apply StringFacts.tame_no_script. cbn.
    unfold html_document, html_message.
    repeat (apply StringFacts.tame_app; [try reflexivity|]); try reflexivity.
    + apply StringFacts.no_lt_tame, StringFacts.escapeHtml_no_lt.
    + apply StringFacts.replace_double_spaces_tame,
        StringFacts.replace_newlines_tame, StringFacts.escapeHtml_no_lt.
  - destruct Hm as (pre & post & ->). cbn.
    unfold html_document, html_message.
    do 16 apply StringFacts.Contains_app_r.
    apply StringFacts.Contains_app_l. cbn [to_str].
    rewrite !StringFacts.escapeHtml_app, !StringFacts.replace_newlines_app.
    change (escapeHtml "<script>") with "&lt;script&gt;".
    change (replace_newlines "&lt;script&gt;") with "&lt;script&gt;".
    rewrite (StringFacts.append_cons "&").
    rewrite StringFacts.replace_double_spaces_app by reflexivity.
    apply StringFacts.Contains_app_r.
    rewrite <- (StringFacts.append_cons "&").
    change ("&lt;script&gt;" ++ replace_newlines (escapeHtml post))
      with ("&lt;script&gt" ++ String ";" (replace_newlines (escapeHtml post))).
    rewrite StringFacts.replace_double_spaces_app by reflexivity.
    rewrite (StringFacts.replace_double_spaces_cons ";") by reflexivity.
    change (replace_double_spaces "&lt;script&gt") with "&lt;script&gt".
    exists "", (replace_double_spaces (replace_newlines (escapeHtml post))).
    reflexivity.
Qed.

Lemma C8_witness :
  safe_text "Not Found" = true
  /\ (escapeHtml "Not Found" = "Not Found"
      /\ escapeHtml (escapeHtml "Not Found") = escapeHtml "Not Found")
  /\ ~ Contains "<script>"
       (bytes (constructHtmlBody (H := node) 500 (Some "<script>alert(1)</script>")))
  /\ Contains "&lt;script&gt;"
       (bytes (constructHtmlBody (H := node) 500 (Some "<script>alert(1)</script>"))).
Proof.
  split; [reflexivity|].
  apply (C8_escaping (H := node) "Not Found" 500 "<script>alert(1)</script>");
    [reflexivity|].
  exists "", "alert(1)</script>". reflexivity.
Defined.

(** C9 as stated fails, in two ways.  In [part_000] a [message] that is
    falsy is replaced by [false] before its type is tested: the number 0
    is neither a boolean nor a function, and construction succeeds.  In
    [index.js] no [message] option is read: a string is accepted. *)
Lemma C9_counterexample :
  (typeof (opt_message zero_message) <> TBoolean
   /\ typeof (opt_message zero_message) <> TFunction
   /\ Part000.finalhandler (Some zero_message) = Ok part000_defaults)
  /\ (typeof (opt_message string_message) <> TBoolean
      /\ typeof (opt_message string_message) <> TFunction
      /\ IndexJs.finalhandler None (Some string_message) = index_js_defaults).
Proof. repeat split; discriminate. Qed.

(** C9, amended.  In [part_000] construction throws exactly when the
    [message] option is truthy and is neither [true] nor a function; what
    is thrown is the type error on the [message] option.  A falsy
    [message] (absent, [false], 0, the empty string, [null]) stands for
    [false], and [true] for the default derivation.  No other option
    decides whether construction throws.  [index.js] reads [env] and
    [onerror] only and cannot throw. *)
Theorem C9_message_option_validation
        (message : JsValue MessageFn) (onerror : JsValue Callback)
        (stacktrace env : JsValue unit) :
  (throws (Part000.finalhandler (Some (mkOptions message onerror stacktrace env)))
   <-> truthy message = true /\ message <> JBool true /\ typeof message <> TFunction)
  /\ (forall e,
         Part000.finalhandler (Some (mkOptions message onerror stacktrace env)) = Throw e ->
         e = TypeError "option message must be boolean or function")
  /\ (truthy message = false ->
      Part000.finalhandler (Some (mkOptions message onerror stacktrace env))
      = Ok (Part000.mkConfig (JBool false) onerror (js_or stacktrace (JBool false))))
  /\ (message = JBool true ->
      Part000.finalhandler (Some (mkOptions message onerror stacktrace env))
      = Ok (Part000.mkConfig (JFunction Part000.getDefaultErrorMessage) onerror
              (js_or stacktrace (JBool false))))
  /\ (forall f, message = JFunction f ->
      Part000.finalhandler (Some (mkOptions message onerror stacktrace env))
      = Ok (Part000.mkConfig (JFunction f) onerror (js_or stacktrace (JBool false))))
  /\ (forall onerror' stacktrace' env',
         throws (Part000.finalhandler (Some (mkOptions message onerror stacktrace env)))
         <-> throws (Part000.finalhandler
                       (Some (mkOptions message onerror' stacktrace' env'))))
  /\ Part000.finalhandler None = Ok part000_defaults
  /\ (forall node_env message' stacktrace',
         IndexJs.finalhandler node_env (Some (mkOptions message onerror stacktrace env))
         = IndexJs.finalhandler node_env
             (Some (mkOptions message' onerror stacktrace' env))).
Proof.
  assert (Hchar : forall oe st ev,
             throws (Part000.finalhandler (Some (mkOptions message oe st ev)))
             <-> truthy message = true /\ message <> JBool true
                 /\ typeof message <> TFunction).
  { intros oe st ev. unfold throws, Part000.finalhandler. cbn.
    unfold Part000.message_option. cbn.
    destruct message as [| |[|]|n|s|f|]; cbn; unfold js_or; cbn;
      try destruct (truthy_number n) eqn:En;
      try destruct (truthy_string s) eqn:Es; cbn;
      split;
      try (intros (e & [=]); fail);
      try (intros (A & B & C); congruence);
      try (intros _; repeat split; congruence);
      try (intros _; eexists; reflexivity). }
  split; [apply Hchar|].
  split.
  { intros e. unfold Part000.finalhandler. cbn.
    destruct (Part000.bad_message_type _); intros [=]. now subst. }
  split.
  { intros Hf. unfold Part000.finalhandler, Part000.message_option. cbn.
    destruct message as [| |[|]|n|s|f|]; cbn in *; try discriminate;
      unfold js_or; cbn; rewrite ?Hf; reflexivity. }
  split; [intros ->; reflexivity|].
  split; [intros f ->; reflexivity|].
  split; [intros oe st ev; now rewrite !Hchar|].
  split; reflexivity.
Qed.

(** C10 as stated fails on [index.js]: invoked without an error on a
    response whose headers were sent with status 200, the responder has
    assigned 404 to [res.statusCode] before it finds that it cannot
    respond. *)
Lemma C10_counterexample :
  header_sent committed_world = true
  /\ statusCode committed_world = 200
  /\ statusCode (IndexJs.responder (H := node) index_js_defaults post_request
                   None committed_world) = 404.
Proof. repeat split. Qed.

(** C10, amended.  When the headers of the response were sent, the
    responder of [part_000] leaves [res.statusCode] as it was: the status
    it resolved lives in a local variable that only [write] assigns to
    the response.  The responder of [index.js] has no such local: it
    resolves the status in [res.statusCode] itself, before the test of
    the headers, and so leaves the resolved status there. *)
Theorem C10_status_field_when_committed `{Collaborators}
        (cfg : Part000.Config) (cfg' : IndexJs.Config)
        (req : Request) (err : option Error) (w : World) :
  header_sent w = true ->
  statusCode (Part000.responder cfg req err w) = statusCode w
  /\ statusCode (IndexJs.responder cfg' req err w)
     = statusCode (IndexJs.resolve_status err w)
  /\ statusCode (IndexJs.responder cfg' req None w) = 404.
Proof.
  intros Hw.
  rewrite (ResponderFacts.part000_committed cfg req err w Hw).
  rewrite (ResponderFacts.index_js_committed cfg' req err w Hw).
  rewrite (ResponderFacts.index_js_committed cfg' req None w Hw).
  repeat split.
Qed.

Lemma C10_witness :
  header_sent committed_world = true
  /\ statusCode (Part000.responder (H := node) part000_defaults post_request
                   (Some (plain_error (Some 404))) committed_world) = 200
  /\ statusCode (IndexJs.responder (H := node) index_js_defaults post_request
                   (Some (plain_error (Some 404))) committed_world) = 404.
Proof.
  split; [reflexivity|].
  pose proof (C10_status_field_when_committed (H := node)
                part000_defaults index_js_defaults post_request
                (Some (plain_error (Some 404))) committed_world eq_refl)
    as (P & I & _).
  split; [exact P | exact I].
Defined.

(* ===================================================================== *)
(** ** Further properties *)
(* ===================================================================== *)

(** In [index.js] every non-zero [err.status] becomes the status of the
    response, in or out of the range 400..599. *)
Theorem index_js_any_status `{Collaborators}
        (cfg : IndexJs.Config) (req : Request) (e : Error) (s : Z) (w : World) :
  err_status e = Some s ->
  s <> 0 ->
  header_sent w = false ->
  statusCode (IndexJs.resolve_status (Some e) w) = s
  /\ statusCode (settle req (IndexJs.responder cfg req (Some e) w)) = s.
Proof.
  intros Es Hs Hw.
  pose proof (StatusFacts.index_js_truthy_status e s w Es Hs) as I.
  split; [exact I|].
  rewrite (ResponderFacts.index_js_open cfg req (Some e) w Hw).
  rewrite ResponderFacts.settle_send_status. exact I.
Qed.

Lemma index_js_any_status_witness :
  statusCode (IndexJs.resolve_status (Some (plain_error (Some 200))) world_503) = 200
  /\ statusCode (settle post_request
                   (IndexJs.responder (H := node) index_js_defaults post_request
                      (Some (plain_error (Some 200))) world_503)) = 200.
Proof.
  apply (index_js_any_status (H := node) index_js_defaults post_request
           (plain_error (Some 200)) 200 world_503);
    [reflexivity | lia | reflexivity].
Defined.

(** The whole invocation of [part_000]'s responder, when the request
    stream is still readable and the headers were not sent: until the
    stream ends the response is untouched, status included; when it ends
    the write sequence runs once, with the resolved status and the
    negotiated body. *)
Theorem part000_defers_until_end `{Collaborators}
        (cfg : Part000.Config) (req : Request) (err : option Error) (w : World) :
  readable req = true ->
  header_sent w = false ->
  end_once w = [] ->
  (statusCode (Part000.responder cfg req err w) = statusCode w
   /\ headers (Part000.responder cfg req err w) = headers w
   /\ writes (Part000.responder cfg req err w) = writes w)
  /\ emit_end (Part000.responder cfg req err w)
     = write req (Part000.resolve_status (statusCode w) err)
             (body_part000 cfg req err w)
             (drain req (Part000.schedule_onerror (Part000.cfg_onerror cfg) err w))
  /\ emit_end (emit_end (Part000.responder cfg req err w))
     = emit_end (Part000.responder cfg req err w).
Proof.
  intros Hr Hw He.
  rewrite (ResponderFacts.part000_open cfg req err w Hw).
  set (w0 := Part000.schedule_onerror (Part000.cfg_onerror cfg) err w).
  assert (statusCode w0 = statusCode w /\ headers w0 = headers w
          /\ writes w0 = writes w /\ end_once w0 = []) as (A0 & C0 & E0 & D0).
  { unfold w0. rewrite ResponderFacts.schedule_part000. unfold writes. cbn.
    rewrite List.filter_app.
    destruct (ResponderFacts.deferred_not_written (Part000.cfg_onerror cfg) err)
      as [-> _].
    now rewrite app_nil_r. }
  destruct (TransmitterFacts.drain_frame req w0) as (A & _ & C & _ & E & _).
  cbn zeta in *.
  split; [|split].
  - rewrite (TransmitterFacts.send_readable req _ _ w0 Hr). cbn.
    unfold writes in *. cbn. rewrite A, C, E, A0, C0, E0. repeat split.
  - pose proof (TransmitterFacts.settle_send req
                  (Part000.resolve_status (statusCode w) err)
                  (body_part000 cfg req err w) w0 D0) as S.
    unfold settle in S. rewrite Hr in S. exact S.
  - apply TransmitterFacts.emit_end_twice.
Qed.

Lemma part000_defers_until_end_witness :
  readable post_request = true
  /\ writes (Part000.responder (H := node) part000_defaults post_request
               (Some (plain_error (Some 404))) fresh_world) = []
  /\ statusCode (Part000.responder (H := node) part000_defaults post_request
                   (Some (plain_error (Some 404))) fresh_world) = 200
  /\ statusCode (emit_end
                   (Part000.responder (H := node) part000_defaults post_request
                      (Some (plain_error (Some 404))) fresh_world)) = 404.
Proof.
  split; [reflexivity|].
  pose proof (part000_defers_until_end (H := node) part000_defaults post_request
                (Some (plain_error (Some 404))) fresh_world
                eq_refl eq_refl eq_refl) as ((S & _ & W) & E & _).
  split; [exact W|]. split; [exact S|].
  rewrite E. reflexivity.
Defined.

(** The second example of the spec: no error, GET /missing and
    [Accept: text/html] give status 404 and an HTML body with the literal
    text Cannot GET /missing; the first example: an error with status 404
    and [Accept: text/plain] give status 404, the type
    [text/plain; charset=utf-8] and the body Not Found with a newline. *)
Theorem spec_examples :
  (statusCode (Part000.responder (H := node) part000_defaults
                 (get_request "GET" "/missing" (Some "text/html") false)
                 None fresh_world) = 404
   /\ ends (effects (Part000.responder (H := node) part000_defaults
                       (get_request "GET" "/missing" (Some "text/html") false)
                       None fresh_world))
      = [Some (mkBuffer
                 ("<!doctype html>" ++ nl ++ "<html lang=en>" ++ nl
                  ++ "<head>" ++ nl ++ "<meta charset=utf-8>" ++ nl
                  ++ "<title>Not Found</title>" ++ nl ++ "</head>" ++ nl
                  ++ "<body>" ++ nl ++ "Cannot GET /missing" ++ nl
                  ++ "</body>" ++ nl)
                 "text/html; charset=utf-8")])
  /\ (statusCode (Part000.responder (H := node) part000_defaults
                    (get_request "GET" "/x" (Some "text/plain") false)
                    (Some (mkError (Some 404) None None None "[object Object]"))
                    fresh_world) = 404
      /\ effects (Part000.responder (H := node) part000_defaults
                    (get_request "GET" "/x" (Some "text/plain") false)
                    (Some (mkError (Some 404) None None None "[object Object]"))
                    fresh_world)
         = [ SetHeader "X-Content-Type-Options" (HString "nosniff");
             SetHeader "Content-Type" (HString "text/plain; charset=utf-8");
             SetHeader "Content-Length" (HNumber 10);
             End (Some (mkBuffer ("Not Found" ++ nl) "text/plain; charset=utf-8")) ]).
Proof. repeat split. Qed.

(** The built-in derivation behind [message: true] yields [err.message]
    exactly when [err.status] lies in 400..599, and nothing otherwise;
    the message of the response is then the reason phrase of the
    status. *)
Theorem default_message_only_for_4xx_5xx `{Collaborators}
        (e : Error) (status : Z) :
  (forall n, err_status e = Some n -> 400 <= n < 600 ->
             Part000.getDefaultErrorMessage e status = err_message e)
  /\ ((forall n, err_status e = Some n -> n < 400 \/ 600 <= n) ->
      Part000.getDefaultErrorMessage e status = None
      /\ Part000.getErrorMessage e status
           (JFunction Part000.getDefaultErrorMessage)
         = STATUS_CODES status).
Proof.
  unfold Part000.getErrorMessage, Part000.getDefaultErrorMessage. cbn.
  split.
  - intros n En Hn.
    assert (Part000.in_4xx_5xx (err_status e) = true) as ->
        by (apply StatusFacts.in_4xx_5xx_iff; eauto).
    reflexivity.
  - intros Hout.
    assert (Part000.in_4xx_5xx (err_status e) = false) as ->.
    { destruct (Part000.in_4xx_5xx (err_status e)) eqn:E; [|reflexivity].
      apply StatusFacts.in_4xx_5xx_iff in E as (n & En & Hn).
      destruct (Hout n En); lia. }
    split; reflexivity.
Qed.

(* ===================================================================== *)
(** ** Status and message of the error branch *)
(* ===================================================================== *)

(** Whatever the error and whatever status the response carried, the
    status [part_000] resolves is an error status: at least 400, and
    below 600 unless the response itself carried a larger one. *)
Theorem part000_status_at_least_400 (current : Z) (err : option Error) :
  400 <= Part000.resolve_status current err
  /\ Part000.resolve_status current err <= Z.max current 599.
Proof.
  unfold Part000.resolve_status. destruct err as [e|]; [|lia].
  rewrite StatusFacts.default_guard. unfold default_status.
  destruct (err_status e) as [n|].
  - destruct ((400 <=? n) && (n <? 600)) eqn:R.
    + apply andb_prop in R as [A B]. lia.
    + destruct (Z_lt_dec current 400); lia.
  - destruct (Z_lt_dec current 400); lia.
Qed.

(** Without a [message] and a [stacktrace] option, [part_000] shows the
    client nothing of the error but its status: the message is the reason
    phrase of the resolved status, and two errors with the same [status]
    attribute get the same body. *)
Theorem part000_default_hides_details `{Collaborators}
        (cfg : Part000.Config) (req : Request) (e1 e2 : Error) (w : World) :
  truthy (Part000.cfg_stacktrace cfg) = false ->
  truthy (Part000.cfg_message cfg) = false ->
  err_status e1 = err_status e2 ->
  Part000.resolve_message cfg req
    (Part000.resolve_status (statusCode w) (Some e1)) (Some e1)
  = STATUS_CODES (Part000.resolve_status (statusCode w) (Some e1))
  /\ body_part000 cfg req (Some e1) w = body_part000 cfg req (Some e2) w.
Proof.
  intros Hst Hm He.
  assert (forall e s, Part000.resolve_message cfg req s (Some e) = STATUS_CODES s) as M.
  { intros e s. unfold Part000.resolve_message, Part000.getErrorMessage.
    rewrite Hst, Hm. reflexivity. }
  split; [apply M|].
  unfold body_part000. rewrite !M.
  unfold Part000.resolve_status. now rewrite He.
Qed.

Lemma part000_default_hides_details_witness :
  body_part000 (H := node) part000_defaults post_request
    (Some (plain_error (Some 503))) fresh_world
  = body_part000 (H := node) part000_defaults post_request
      (Some stack_error) fresh_world
  /\ bytes (body_part000 (H := node) part000_defaults post_request
              (Some stack_error) fresh_world)
     = "Service Unavailable" ++ nl.
Proof.
  split; [|reflexivity].
  apply (part000_default_hides_details (H := node) part000_defaults post_request
           (plain_error (Some 503)) stack_error fresh_world
           eq_refl eq_refl eq_refl).
Defined.

(** With [message: true] and a falsy [stacktrace], the plain-text body
    [part_000] builds for an error is [err.message] and a newline when
    [err.status] lies in 400..599 and [err.message] is a non-empty
    string; in every other case (a status outside the range or absent,
    a message empty or absent) it is the string form of the reason
    phrase of the resolved status and a newline. *)
Theorem part000_message_true_body `{Collaborators}
        (onerror : JsValue Callback) (stacktrace env : JsValue unit)
        (req : Request) (e : Error) (w : World) :
  truthy stacktrace = false ->
  accepts_types req ["html"; "text"] <> Some "html" ->
  exists cfg,
    Part000.finalhandler
      (Some (mkOptions (JBool true) onerror stacktrace env)) = Ok cfg
    /\ bytes (body_part000 cfg req (Some e) w)
       = to_str (if Part000.in_4xx_5xx (err_status e)
                    && truthy_opt (err_message e)
                 then err_message e
                 else STATUS_CODES
                        (Part000.resolve_status (statusCode w) (Some e)))
         ++ nl.
Proof.
  intros Hst Hacc. eexists. split; [reflexivity|].
  unfold body_part000, negotiate.
  assert (forall s ms, bytes ((match accepts_types req ["html"; "text"] with
                               | Some t => if String.eqb t "html"
                                           then constructHtmlBody
                                           else constructTextBody
                               | None => constructTextBody
                               end) s ms) = to_str ms ++ nl) as B.
  { intros s ms. destruct (accepts_types req ["html"; "text"]) as [t|]; [|reflexivity].
    destruct (String.eqb t "html") eqn:E; [|reflexivity].
    apply String.eqb_eq in E. now subst t. }
  rewrite B. f_equal. f_equal.
  set (s := Part000.resolve_status (statusCode w) (Some e)).
  unfold Part000.resolve_message.
  cbn [Part000.cfg_stacktrace Part000.cfg_message default from_option id
       opt_stacktrace opt_message Part000.message_option].
  unfold js_or. rewrite Hst. cbn [truthy].
  unfold Part000.getErrorMessage. cbn [truthy Part000.call_message].
  unfold Part000.getDefaultErrorMessage.
  destruct (Part000.in_4xx_5xx (err_status e)); cbn [andb].
  - unfold or_opt. now destruct (truthy_opt (err_message e)).
  - reflexivity.
Qed.

Lemma part000_message_true_body_witness :
  exists cfg,
    Part000.finalhandler
      (Some (mkOptions (JBool true) JUndefined JUndefined JUndefined)) = Ok cfg
    /\ bytes (body_part000 (H := node) cfg post_request
                (Some stack_error) fresh_world)
       = to_str (if Part000.in_4xx_5xx (err_status stack_error)
                    && truthy_opt (err_message stack_error)
                 then err_message stack_error
                 else STATUS_CODES (Collaborators := node)
                        (Part000.resolve_status (statusCode fresh_world)
                           (Some stack_error)))
         ++ nl.
Proof.
  apply (part000_message_true_body (H := node) JUndefined JUndefined JUndefined
           post_request stack_error fresh_world eq_refl).
  discriminate.
Defined.

(** [index.js] runs in production mode exactly when [options.env] is the
    string production, or [options.env] is falsy and the variable
    [NODE_ENV] of the process is production: the option wins over the
    variable, and without either the mode is development. *)
Theorem index_js_production_mode
        (node_env : option string) (message : JsValue MessageFn)
        (onerror : JsValue Callback) (stacktrace env : JsValue unit) :
  IndexJs.is_production
    (IndexJs.cfg_env
       (IndexJs.finalhandler node_env
          (Some (mkOptions message onerror stacktrace env)))) = true
  <-> env = JString "production"
      \/ (truthy env = false /\ node_env = Some "production").
Proof.
  unfold IndexJs.finalhandler, js_or.
  cbn [default no_options opt_env IndexJs.cfg_env from_option id].
  assert (Hfalsy : IndexJs.is_production
                     (if truthy (IndexJs.env_value node_env)
                      then IndexJs.env_value node_env
                      else JString "development") = true
                   <-> node_env = Some "production").
  { destruct node_env as [s|];
      cbn [IndexJs.env_value truthy truthy_string IndexJs.is_production].
    - destruct s as [|c s];
        cbn [IndexJs.env_value truthy truthy_string IndexJs.is_production];
        [split; discriminate|].
      split.
      + intros E. apply String.eqb_eq in E. now rewrite E.
      + intros E. assert (String c s = "production") as -> by congruence.
        reflexivity.
    - split; discriminate. }
  destruct env as [| |[|]|n|s|f|];
    cbn [truthy truthy_string IndexJs.is_production].
  - rewrite Hfalsy. split; [auto | intros [E|[_ E]]; [discriminate E | exact E]].
  - rewrite Hfalsy. split; [auto | intros [E|[_ E]]; [discriminate E | exact E]].
  - split; [intros E | intros [E|[E _]]]; discriminate E.
  - rewrite Hfalsy. split; [auto | intros [E|[_ E]]; [discriminate E | exact E]].
  - destruct (truthy_number n) eqn:En;
      cbn [truthy]; rewrite ?En; cbn [IndexJs.is_production].
    + split; [intros E | intros [E|[E _]]]; discriminate E.
    + rewrite Hfalsy. split; [auto | intros [E|[_ E]]; [discriminate E | exact E]].
  - destruct s as [|c s]; cbn [truthy truthy_string IndexJs.is_production].
    + rewrite Hfalsy. split; [auto | intros [E|[_ E]]; [discriminate E | exact E]].
    + split.
      * intros E. apply String.eqb_eq in E. left. now rewrite E.
      * intros [E|[E _]]; [|discriminate E].
        assert (String c s = "production") as -> by congruence.
        reflexivity.
  - split; [intros E | intros [E|[E _]]]; discriminate E.
  - split; [intros E | intros [E|[E _]]]; discriminate E.
Qed.

(** In production mode the body [index.js] builds does not depend on the
    error beyond its [status]: two errors with the same [status]
    attribute get the same body, whatever their stacks and messages. *)
Theorem index_js_production_hides_details `{Collaborators}
        (cfg : IndexJs.Config) (req : Request) (e1 e2 : Error) (w : World) :
  IndexJs.is_production (IndexJs.cfg_env cfg) = true ->
  err_status e1 = err_status e2 ->
  body_index_js cfg req (Some e1) w = body_index_js cfg req (Some e2) w.
Proof.
  intros Hp He. unfold body_index_js, IndexJs.resolve_message, IndexJs.resolve_status.
  rewrite Hp, He. reflexivity.
Qed.

Lemma index_js_production_hides_details_witness :
  body_index_js (H := node) (IndexJs.mkConfig (JString "production") JUndefined)
    post_request (Some (plain_error (Some 503))) fresh_world
  = body_index_js (H := node) (IndexJs.mkConfig (JString "production") JUndefined)
      post_request (Some stack_error) fresh_world.
Proof.
  apply (index_js_production_hides_details (H := node)
           (IndexJs.mkConfig (JString "production") JUndefined) post_request
           (plain_error (Some 503)) stack_error fresh_world eq_refl eq_refl).
Defined.

(** Called without an [env] option in a process without [NODE_ENV],
    [index.js] is in development mode: the plain-text body of an error
    is its stack, or its string form when it has no stack. *)
Theorem index_js_default_exposes_stack `{Collaborators}
        (req : Request) (e : Error) (w : World) :
  accepts_types req ["html"; "text"] <> Some "html" ->
  body_index_js (IndexJs.finalhandler None None) req (Some e) w
  = mkBuffer (or_string (err_stack e) (err_toString e) ++ nl)
             "text/plain; charset=utf-8".
Proof.
  intros Hacc. unfold body_index_js, negotiate. cbn.
  destruct (accepts_types req ["html"; "text"]) as [t|]; [|reflexivity].
  destruct (String.eqb t "html") eqn:E; [|reflexivity].
  apply String.eqb_eq in E. now subst t.
Qed.

Lemma index_js_default_exposes_stack_witness :
  body_index_js (H := node) (IndexJs.finalhandler None None) post_request
    (Some stack_error) fresh_world
  = mkBuffer (or_string (err_stack stack_error) (err_toString stack_error) ++ nl)
             "text/plain; charset=utf-8".
Proof.
  apply (index_js_default_exposes_stack (H := node) post_request stack_error
           fresh_world).
  discriminate.
Defined.

(* ===================================================================== *)
(** ** The stack shown in [stacktrace] mode *)
(* ===================================================================== *)

Module StackFacts.

Lemma truthy_app_cons (a : string) (c : ascii) (b : string) :
  truthy_string (a ++ String c b) = true.
Proof. destruct a; reflexivity. Qed.

Lemma or_string_app_cons (a : string) (c : ascii) (b d : string) :
  or_string (Some (a ++ String c b)) d = a ++ String c b.
Proof. unfold or_string. now rewrite truthy_app_cons. Qed.

Lemma from_first_newline_app (first rest : string) :
  no_newline first = true ->
  Part000.from_first_newline (first ++ String LF rest) = Some (String LF rest).
Proof.
  induction first as [|c first IH]; intros Hn.
  - reflexivity.
  - cbn [no_newline] in Hn. apply andb_prop in Hn as [Hc Hn].
    apply negb_true_iff in Hc.
    rewrite StringFacts.append_cons. cbn [Part000.from_first_newline].
    rewrite Hc. exact (IH Hn).
Qed.

Lemma from_first_newline_none (s : string) :
  no_newline s = true -> Part000.from_first_newline s = None.
Proof.
  induction s as [|c s IH]; intros Hn; [reflexivity|].
  cbn [no_newline] in Hn. apply andb_prop in Hn as [Hc Hn].
  apply negb_true_iff in Hc.
  cbn [Part000.from_first_newline]. rewrite Hc. exact (IH Hn).
Qed.

End StackFacts.

(** With a message generator, [getErrorStack] replaces the first line of
    the stack: everything before the first newline is dropped, and the
    name of the error (when it has one), a colon and the message are put
    in its place.  The message is the generator's, or [err.message], or
    the string form of the error, the first that is not empty. *)
Theorem stack_first_line_replaced
        (e : Error) (status : Z) (f : MessageFn) (first rest : string) :
  err_stack e = Some (first ++ String LF rest) ->
  no_newline first = true ->
  Part000.getErrorStack e status (JFunction f)
  = (if truthy_opt (err_name e) then to_str (err_name e) ++ ": " else "")
    ++ or_string (or_opt (f e status) (err_message e)) (err_toString e)
    ++ String LF rest.
Proof.
  intros Es Hn. unfold Part000.getErrorStack.
  cbn [truthy Part000.call_message]. rewrite Es.
  rewrite StackFacts.or_string_app_cons.
  rewrite (StackFacts.from_first_newline_app first rest Hn).
  cbn [default from_option id].
  destruct (truthy_opt (err_name e)).
  - now rewrite !StringFacts.append_assoc.
  - reflexivity.
Qed.

Lemma stack_first_line_replaced_witness :
  no_newline "Error: db down" = true
  /\ Part000.getErrorStack stack_error 503 (JFunction status_only)
     = (if truthy_opt (err_name stack_error)
        then to_str (err_name stack_error) ++ ": " else "")
       ++ or_string (or_opt (status_only stack_error 503) (err_message stack_error))
                    (err_toString stack_error)
       ++ String LF "    at query (db.js:7:3)"
  /\ Part000.getErrorStack stack_error 503 (JFunction status_only)
     = "DbError: try later" ++ nl ++ "    at query (db.js:7:3)".
Proof.
  split; [reflexivity|]. split; [|reflexivity].
  apply (stack_first_line_replaced stack_error 503 status_only
           "Error: db down" "    at query (db.js:7:3)" eq_refl eq_refl).
Defined.

(** A stack of one line is not cut: with a message generator and a stack
    without a newline (or no stack at all), the whole stack follows the
    name and the message. *)
Theorem single_line_stack_is_kept
        (e : Error) (status : Z) (f : MessageFn) :
  no_newline (or_string (err_stack e) "") = true ->
  Part000.getErrorStack e status (JFunction f)
  = (if truthy_opt (err_name e) then to_str (err_name e) ++ ": " else "")
    ++ or_string (or_opt (f e status) (err_message e)) (err_toString e)
    ++ or_string (err_stack e) "".
Proof.
  intros Hn. unfold Part000.getErrorStack.
  cbn [truthy Part000.call_message].
  rewrite (StackFacts.from_first_newline_none _ Hn).
  cbn [default from_option id].
  destruct (truthy_opt (err_name e)).
  - now rewrite !StringFacts.append_assoc.
  - reflexivity.
Qed.

Lemma single_line_stack_is_kept_witness :
  Part000.getErrorStack (mkError None None (Some "boom") None "boom") 500
    (JFunction status_only)
  = "boom" ++ "boom".
Proof.
  apply (single_line_stack_is_kept (mkError None None (Some "boom") None "boom")
           500 status_only eq_refl).
Defined.

(** [part_000] with a truthy [stacktrace] and no [message] option shows
    an error as [index.js] does outside production mode: the stack, or
    the string form of the error when the stack is missing or empty. *)
Theorem stacktrace_mode_matches_development `{Collaborators}
        (cfg : Part000.Config) (cfg' : IndexJs.Config)
        (req : Request) (e : Error) (status : Z) (w : World) :
  truthy (Part000.cfg_stacktrace cfg) = true ->
  truthy (Part000.cfg_message cfg) = false ->
  IndexJs.is_production (IndexJs.cfg_env cfg') = false ->
  Part000.resolve_message cfg req status (Some e)
  = IndexJs.resolve_message cfg' req (Some e) w
  /\ Part000.resolve_message cfg req status (Some e)
     = Some (or_string (err_stack e) (err_toString e)).
Proof.
  intros Hst Hm Hp.
  unfold Part000.resolve_message, IndexJs.resolve_message, Part000.getErrorStack.
  rewrite Hst, Hm, Hp.
  destruct (err_stack e) as [[|c s]|]; cbn; split; reflexivity.
Qed.

Lemma stacktrace_mode_matches_development_witness :
  Part000.resolve_message (H := node)
    (Part000.mkConfig (JBool false) JUndefined (JBool true))
    post_request 503 (Some stack_error)
  = IndexJs.resolve_message (H := node) index_js_defaults post_request
      (Some stack_error) fresh_world
  /\ Part000.resolve_message (H := node)
       (Part000.mkConfig (JBool false) JUndefined (JBool true))
       post_request 503 (Some stack_error)
     = Some (or_string (err_stack stack_error) (err_toString stack_error)).
Proof.
  apply (stacktrace_mode_matches_development (H := node)
           (Part000.mkConfig (JBool false) JUndefined (JBool true))
           index_js_defaults post_request stack_error 503 fresh_world
           eq_refl eq_refl eq_refl).
Defined.

(** A message generator is called with the error and the resolved status
    (not [err.status]); what it returns, when that is not empty, is the
    message of the plain-text body, and the reason phrase of the resolved
    status is not consulted. *)
Theorem custom_message_is_the_body `{Collaborators}
        (cfg : Part000.Config) (req : Request) (e : Error)
        (f : MessageFn) (m : string) (w : World) :
  truthy (Part000.cfg_stacktrace cfg) = false ->
  Part000.cfg_message cfg = JFunction f ->
  f e (Part000.resolve_status (statusCode w) (Some e)) = Some m ->
  truthy_string m = true ->
  accepts_types req ["html"; "text"] <> Some "html" ->
  body_part000 cfg req (Some e) w = mkBuffer (m ++ nl) "text/plain; charset=utf-8".
Proof.
  intros Hst Hf Hm Ht Hacc.
  unfold body_part000, Part000.resolve_message, Part000.getErrorMessage.
  rewrite Hst, Hf. cbn [truthy Part000.call_message]. rewrite Hm.
  unfold or_opt. cbn [truthy_opt]. rewrite Ht.
  unfold negotiate.
  destruct (accepts_types req ["html"; "text"]) as [t|]; [|reflexivity].
  destruct (String.eqb t "html") eqn:E; [|reflexivity].
  apply String.eqb_eq in E. now subst t.
Qed.

Lemma custom_message_is_the_body_witness :
  body_part000 (H := node)
    (Part000.mkConfig (JFunction status_only) JUndefined (JBool false))
    post_request (Some stack_error) fresh_world
  = mkBuffer ("try later" ++ nl) "text/plain; charset=utf-8".
Proof.
  apply (custom_message_is_the_body (H := node)
           (Part000.mkConfig (JFunction status_only) JUndefined (JBool false))
           post_request stack_error status_only "try later" fresh_world
           eq_refl eq_refl eq_refl eq_refl).
  discriminate.
Defined.

(* ===================================================================== *)
(** ** The request stream and the order of the calls *)
(* ===================================================================== *)

Module StreamFacts.

Lemma call_pipe_listeners_effects (ls : list string) (w : World) :
  effects (call_pipe_listeners ls w)
  = (effects w ++ map CallListener (List.filter is_pipe_listener ls))%list.
Proof.
  revert w. induction ls as [|name ls IH]; intros w.
  - cbn. now rewrite app_nil_r.
  - cbn [call_pipe_listeners List.filter]. unfold is_pipe_listener at 1.
    rewrite <- negb_orb.
    destruct (String.eqb name "cleanup" || String.eqb name "onclose"); cbn [negb].
    + rewrite IH. cbn. now rewrite <- app_assoc.
    + apply IH.
Qed.

Lemma call_pipe_listeners_set_statusCode (ls : list string) (n : Z) (w : World) :
  call_pipe_listeners ls (set_statusCode n w)
  = set_statusCode n (call_pipe_listeners ls w).
Proof.
  revert w. induction ls as [|name ls IH]; intros w; [reflexivity|].
  cbn [call_pipe_listeners].
  destruct (negb (String.eqb name "cleanup") && negb (String.eqb name "onclose")).
  - apply IH.
  - rewrite <- IH. reflexivity.
Qed.

Lemma drain_set_statusCode (req : Request) (n : Z) (w : World) :
  drain req (set_statusCode n w) = set_statusCode n (drain req w).
Proof.
  unfold drain, unpipe. destruct (readable req); [|reflexivity].
  destruct (has_unpipe req); [reflexivity|].
  now rewrite call_pipe_listeners_set_statusCode.
Qed.

Lemma write_set_statusCode (req : Request) (s : Z) (b : Buffer) (n : Z) (w : World) :
  write req s b (set_statusCode n w) = write req s b w.
Proof. now rewrite !TransmitterFacts.write_eq. Qed.

(** Neither the transmitter nor the end of the stream schedules a
    callback. *)
Lemma drain_effects (req : Request) (w : World) :
  exists es, effects (drain req w) = (effects w ++ es)%list
             /\ List.filter is_defer es = [] /\ List.filter is_write es = [].
Proof.
  unfold drain, unpipe. destruct (readable req).
  - destruct (has_unpipe req).
    + exists [Unpipe; Resume]. cbn. now rewrite <- app_assoc.
    + exists (map CallListener (List.filter is_pipe_listener (close_listeners req))
              ++ [Resume])%list.
      cbn. rewrite call_pipe_listeners_effects, <- app_assoc.
      split; [reflexivity|].
      rewrite !List.filter_app. cbn.
      induction (List.filter is_pipe_listener (close_listeners req)) as [|x l IH];
        [now split | exact IH].
  - exists []. cbn. now rewrite app_nil_r.
Qed.

Lemma length_append (a b : string) :
  String.length (a ++ b) = (String.length a + String.length b)%nat.
Proof.
  induction a as [|c a IH]; [reflexivity|].
  rewrite StringFacts.append_cons. cbn [String.length]. now rewrite IH.
Qed.

End StreamFacts.

(** [unpipe] calls [stream.unpipe()] when the stream has it; on an old
    stream it invokes, in the order of registration, exactly the
    listeners of [close] that are named cleanup or onclose, and passes
    over every other listener.  Either way it leaves the response and the
    listeners of [end] alone. *)
Theorem unpipe_calls_only_pipe_listeners (req : Request) (w : World) :
  effects (unpipe req w)
  = (effects w
     ++ (if has_unpipe req then [Unpipe]
         else map CallListener
                  (List.filter is_pipe_listener (close_listeners req))))%list
  /\ statusCode (unpipe req w) = statusCode w
  /\ header_sent (unpipe req w) = header_sent w
  /\ headers (unpipe req w) = headers w
  /\ end_once (unpipe req w) = end_once w.
Proof.
  destruct (TransmitterFacts.unpipe_frame req w) as (A & B & C & D & _).
  cbn zeta in *. rewrite A, B, C, D.
  split; [|repeat split].
  unfold unpipe. destruct (has_unpipe req); [reflexivity|].
  apply StreamFacts.call_pipe_listeners_effects.
Qed.

(** For a method other than HEAD, the payload handed to [res.end] is the
    body whose byte length [Content-Length] announces and whose type
    [Content-Type] carries. *)
Theorem content_length_matches_payload
        (req : Request) (status : Z) (body : Buffer) (w : World) :
  method req <> "HEAD" ->
  end_once w = [] ->
  ends (effects (settle req (send req status body w)))
  = (ends (effects w) ++ [Some body])%list
  /\ headers (settle req (send req status body w)) !! "Content-Length"
     = Some (HNumber (Z.of_nat (String.length (bytes body))))
  /\ headers (settle req (send req status body w)) !! "Content-Type"
     = Some (HString (type body))
  /\ statusCode (settle req (send req status body w)) = status.
Proof.
  intros Hm He.
  rewrite (TransmitterFacts.settle_send req status body w He).
  rewrite TransmitterFacts.write_eq. cbn.
  unfold write_calls, write_headers, buffer_length.
  apply String.eqb_neq in Hm. rewrite Hm.
  destruct (TransmitterFacts.drain_frame req w) as (_ & _ & _ & _ & _ & F).
  repeat split.
  - rewrite TransmitterFacts.ends_app, F. reflexivity.
  - apply lookup_insert_eq.
  - rewrite lookup_insert_ne by discriminate. apply lookup_insert_eq.
Qed.

Lemma content_length_matches_payload_witness :
  method post_request <> "HEAD"
  /\ ends (effects (settle post_request
                      (send post_request 404
                            (constructTextBody 404 (Some "Not Found")) fresh_world)))
     = [Some (constructTextBody 404 (Some "Not Found"))]
  /\ headers (settle post_request
                (send post_request 404
                      (constructTextBody 404 (Some "Not Found")) fresh_world))
       !! "Content-Length"
     = Some (HNumber 10).
Proof.
  split; [discriminate|].
  pose proof (content_length_matches_payload post_request 404
                (constructTextBody 404 (Some "Not Found")) fresh_world)
    as P.
  destruct P as (E & L & _); [discriminate | reflexivity |].
  split; [exact E | exact L].
Defined.

(** The [onerror] callback is scheduled first: in both variants the
    calls of an invocation begin with the scheduling of [onerror] (one
    call when there is an error and a truthy [onerror], none otherwise),
    and nothing after it schedules a callback, whether the response is
    then written, awaited or destroyed. *)
Theorem onerror_is_scheduled_first `{Collaborators}
        (cfg : Part000.Config) (cfg' : IndexJs.Config)
        (req : Request) (err : option Error) (w : World) :
  (exists rest,
      effects (Part000.responder cfg req err w)
      = (effects w ++ deferred_calls (Part000.cfg_onerror cfg) err ++ rest)%list
      /\ List.filter is_defer rest = [])
  /\ (exists rest,
         effects (IndexJs.responder cfg' req err w)
         = (effects w ++ deferred_calls (IndexJs.cfg_onerror cfg') err ++ rest)%list
         /\ List.filter is_defer rest = [])
  /\ deferred_calls (Part000.cfg_onerror cfg) None = []
  /\ (length (deferred_calls (Part000.cfg_onerror cfg) err) <= 1)%nat.
Proof.
  assert (Hsend : forall s b w0,
             exists rest, effects (send req s b w0) = (effects w0 ++ rest)%list
                          /\ List.filter is_defer rest = []).
  { intros s b w0. unfold send. destruct (readable req) eqn:Hr; cbn [negb].
    - destruct (StreamFacts.drain_effects req w0) as (es & E & D & _).
      unfold drain in E. rewrite Hr in E. exists es. split; [|exact D].
      exact E.
    - rewrite TransmitterFacts.write_eq. cbn. eexists. split; [reflexivity|].
      reflexivity. }
  split; [|split; [|split]].
  - destruct (header_sent w) eqn:Hw.
    + rewrite (ResponderFacts.part000_committed cfg req err w Hw). cbn.
      exists [Destroy]. split; reflexivity.
    + rewrite (ResponderFacts.part000_open cfg req err w Hw).
      destruct (Hsend (Part000.resolve_status (statusCode w) err)
                      (body_part000 cfg req err w)
                      (Part000.schedule_onerror (Part000.cfg_onerror cfg) err w))
        as (rest & E & D).
      exists rest. split; [|exact D].
      rewrite E, ResponderFacts.schedule_part000. cbn. now rewrite <- app_assoc.
  - destruct (header_sent w) eqn:Hw.
    + rewrite (ResponderFacts.index_js_committed cfg' req err w Hw). cbn.
      exists [Destroy]. split; reflexivity.
    + rewrite (ResponderFacts.index_js_open cfg' req err w Hw).
      destruct (Hsend (statusCode (IndexJs.resolve_status err w))
                      (body_index_js cfg' req err w)
                      (IndexJs.schedule_onerror (IndexJs.cfg_onerror cfg') err
                         (IndexJs.resolve_status err w)))
        as (rest & E & D).
      exists rest. split; [|exact D].
      rewrite E, ResponderFacts.schedule_index_js.
      rewrite (ResponderFacts.resolve_index_js err w). cbn.
      now rewrite <- app_assoc.
  - reflexivity.
  - unfold deferred_calls.
    destruct err; [destruct (truthy (Part000.cfg_onerror cfg))|]; cbn; lia.
Qed.

(* ===================================================================== *)
(** ** The shape of the bodies *)
(* ===================================================================== *)

Module BodyFacts.

Lemma no_newline_app (a b : string) :
  no_newline (a ++ b) = no_newline a && no_newline b.
Proof.
  induction a as [|c a IH]; [reflexivity|].
  rewrite StringFacts.append_cons. cbn [no_newline].
  now rewrite IH, andb_assoc.
Qed.

Lemma replace_newlines_no_newline (s : string) :
  no_newline (replace_newlines s) = true.
Proof.
  induction s as [|c s IH]; [reflexivity|].
  cbn [replace_newlines]. destruct (Ascii.eqb c LF) eqn:E.
  - rewrite no_newline_app, IH. reflexivity.
  - cbn [no_newline]. now rewrite E, IH.
Qed.

Lemma replace_double_spaces_no_newline_aux (s : string) :
  (no_newline s = true -> no_newline (replace_double_spaces s) = true)
  /\ (forall c, no_newline (String c s) = true ->
                no_newline (replace_double_spaces (String c s)) = true).
Proof.
  induction s as [|d r [IH1 IH2]].
  - split; [reflexivity | intros c Hc; exact Hc].
  - assert (H1 : no_newline (String d r) = true ->
                 no_newline (replace_double_spaces (String d r)) = true)
      by apply IH2.
    split; [exact H1|].
    intros c Hc.
    destruct (Ascii.eqb c " " && Ascii.eqb d " ") eqn:Esp.
    + apply andb_prop in Esp as [Ec Ed].
      apply Ascii.eqb_eq in Ec, Ed. subst c d.
      rewrite StringFacts.replace_double_spaces_pair, no_newline_app.
      rewrite IH1; [reflexivity|].
      cbn [no_newline] in Hc. apply andb_prop in Hc as [_ Hc].
      apply andb_prop in Hc as [_ Hc]. exact Hc.
    + rewrite (StringFacts.replace_double_spaces_other _ _ _ Esp).
      cbn [no_newline] in Hc |- *. apply andb_prop in Hc as [Hc Hrest].
      rewrite Hc. cbn [andb]. apply H1. cbn [no_newline]. exact Hrest.
Qed.

Lemma no_double_space_nonspace (c : ascii) (x : string) :
  Ascii.eqb c " " = false ->
  no_double_space (String c x) = no_double_space x.
Proof.
  intros Ec. destruct x as [|d x]; [reflexivity|].
  cbn [no_double_space]. rewrite Ec. reflexivity.
Qed.

Lemma no_double_space_unpaired (c d : ascii) (x : string) :
  Ascii.eqb c " " && Ascii.eqb d " " = false ->
  no_double_space (String c (String d x)) = no_double_space (String d x).
Proof. intros E. cbn [no_double_space]. now rewrite E. Qed.

Lemma replace_double_spaces_spread_aux (s : string) :
  no_double_space (replace_double_spaces s) = true
  /\ forall c, no_double_space (replace_double_spaces (String c s)) = true.
Proof.
  induction s as [|d r [IH1 IH2]].
  - split; [reflexivity | intros c; reflexivity].
  - assert (H1 : no_double_space (replace_double_spaces (String d r)) = true)
      by apply IH2.
    split; [exact H1|].
    intros c.
    destruct (Ascii.eqb c " " && Ascii.eqb d " ") eqn:Esp.
    + apply andb_prop in Esp as [Ec Ed].
      apply Ascii.eqb_eq in Ec, Ed. subst c d.
      rewrite StringFacts.replace_double_spaces_pair.
      change (" &nbsp;" ++ replace_double_spaces r)
        with (String " " (String "&" (String "n" (String "b" (String "s"
                (String "p" (String ";" (replace_double_spaces r)))))))).
      rewrite no_double_space_unpaired by reflexivity.
      rewrite !no_double_space_nonspace by reflexivity. exact IH1.
    + rewrite (StringFacts.replace_double_spaces_other _ _ _ Esp).
      destruct (StringFacts.replace_double_spaces_head d r) as [r' Er'].
      rewrite Er' in *. rewrite no_double_space_unpaired by exact Esp.
      exact H1.
Qed.

Lemma replace_double_spaces_br (x : string) :
  replace_double_spaces ("<br>" ++ x) = "<br>" ++ replace_double_spaces x.
Proof.
  change ("<br>" ++ x) with (String "<" (String "b" (String "r" (String ">" x)))).
  now rewrite !StringFacts.replace_double_spaces_cons by reflexivity.
Qed.

Lemma layout_fusion_aux (s : string) :
  replace_double_spaces (replace_newlines s) = layout_one_pass s
  /\ forall c, replace_double_spaces (replace_newlines (String c s))
               = layout_one_pass (String c s).
Proof.
  induction s as [|d r [IH1 IH2]].
  - split; [reflexivity|].
    intros c. cbn [replace_newlines layout_one_pass].
    destruct (Ascii.eqb c LF); reflexivity.
  - assert (H1 : replace_double_spaces (replace_newlines (String d r))
                 = layout_one_pass (String d r)) by apply IH2.
    split; [exact H1|].
    intros c.
    change (replace_newlines (String c (String d r)))
      with (if Ascii.eqb c LF then "<br>" ++ replace_newlines (String d r)
            else String c (replace_newlines (String d r))).
    change (layout_one_pass (String c (String d r)))
      with (if Ascii.eqb c LF then "<br>" ++ layout_one_pass (String d r)
            else if Ascii.eqb c " " && Ascii.eqb d " "
                 then " &nbsp;" ++ layout_one_pass r
                 else String c (layout_one_pass (String d r))).
    destruct (Ascii.eqb c LF).
    + now rewrite replace_double_spaces_br, H1.
    + destruct (Ascii.eqb c " " && Ascii.eqb d " ") eqn:Esp.
      * apply andb_prop in Esp as [Ec Ed].
        apply Ascii.eqb_eq in Ec, Ed. subst c d.
        change (replace_newlines (String " " r))
          with (String " " (replace_newlines r)).
        now rewrite StringFacts.replace_double_spaces_pair, IH1.
      * rewrite <- H1.
        change (replace_newlines (String d r))
          with (if Ascii.eqb d LF then "<br>" ++ replace_newlines r
                else String d (replace_newlines r)).
        destruct (Ascii.eqb d LF).
        -- change ("<br>" ++ replace_newlines r)
             with (String "<" ("br>" ++ replace_newlines r)).
           apply StringFacts.replace_double_spaces_other.
           apply andb_false_r.
        -- apply StringFacts.replace_double_spaces_other. exact Esp.
Qed.

(** A newline of the text is a line break of the layout, at its place. *)
Lemma layout_newline (a b : string) :
  replace_double_spaces (replace_newlines (a ++ String LF b))
  = replace_double_spaces (replace_newlines a)
    ++ "<br>" ++ replace_double_spaces (replace_newlines b).
Proof.
  rewrite StringFacts.replace_newlines_app.
  change (replace_newlines (String LF b)) with ("<br>" ++ replace_newlines b).
  change ("<br>" ++ replace_newlines b)
    with (String "<" ("br>" ++ replace_newlines b)).
  rewrite StringFacts.replace_double_spaces_app by reflexivity.
  change (String "<" ("br>" ++ replace_newlines b))
    with ("<br>" ++ replace_newlines b).
  now rewrite replace_double_spaces_br.
Qed.

End BodyFacts.

(** The message of the HTML body is the escaped message laid out for a
    browser: the two replacements of the builder together are the single
    pass that turns every newline into a line break and every pair of
    adjacent spaces into a space and a non-breaking space and copies
    every other character.  A newline of the escaped text is a line
    break at its place, and the result is one line in which no two
    spaces are adjacent. *)
Theorem html_message_keeps_layout (message : option string) :
  html_message message = layout_one_pass (escapeHtml (to_str message))
  /\ (forall a b : string,
         replace_double_spaces (replace_newlines (a ++ String LF b))
         = replace_double_spaces (replace_newlines a)
           ++ "<br>" ++ replace_double_spaces (replace_newlines b))
  /\ no_newline (html_message message) = true
  /\ no_double_space (html_message message) = true.
Proof.
  unfold html_message. split; [|split; [|split]].
  - apply BodyFacts.layout_fusion_aux.
  - apply BodyFacts.layout_newline.
  - apply BodyFacts.replace_double_spaces_no_newline_aux.
    apply BodyFacts.replace_newlines_no_newline.
  - apply BodyFacts.replace_double_spaces_spread_aux.
Qed.

(** Whatever the negotiation selects, the body ends with a newline and
    is announced under one of the two content types; its
    [Content-Length] is never zero. *)
Theorem body_is_never_empty `{Collaborators}
        (req : Request) (status : Z) (message : option string) :
  (exists text, bytes (negotiate req status message) = text ++ nl)
  /\ 0 < buffer_length (negotiate req status message)
  /\ (type (negotiate req status message) = "text/html; charset=utf-8"
      \/ type (negotiate req status message) = "text/plain; charset=utf-8").
Proof.
  assert (Hlen : forall b, (exists text, bytes b = text ++ nl) ->
                           0 < buffer_length b).
  { intros b (text & E). unfold buffer_length. rewrite E.
    rewrite StreamFacts.length_append. cbn. lia. }
  assert (Hhtml : exists text,
             bytes (constructHtmlBody status message) = text ++ nl).
  { cbn. unfold html_document. eexists.
    rewrite <- !StringFacts.append_assoc. reflexivity. }
  assert (Htext : exists text,
             bytes (constructTextBody status message) = text ++ nl).
  { cbn. eexists. reflexivity. }
  unfold negotiate.
  destruct (accepts_types req ["html"; "text"]) as [t|];
    [destruct (String.eqb t "html")|];
    (split; [assumption | split; [apply Hlen; assumption | cbn; auto]]).
Qed.

(** The two variants differ on an error only through [err.status]: for
    an error whose [status] is absent, zero or within 400..599 (and for
    no error at all), [part_000] without [message] and [stacktrace]
    leaves the response, once written, exactly as [index.js] in
    production mode does, given the same [onerror]. *)
Theorem variants_agree_on_valid_status `{Collaborators}
        (cfg : Part000.Config) (cfg' : IndexJs.Config)
        (req : Request) (err : option Error) (w : World) :
  truthy (Part000.cfg_stacktrace cfg) = false ->
  truthy (Part000.cfg_message cfg) = false ->
  IndexJs.is_production (IndexJs.cfg_env cfg') = true ->
  Part000.cfg_onerror cfg = IndexJs.cfg_onerror cfg' ->
  (forall e n, err = Some e -> err_status e = Some n -> n = 0 \/ 400 <= n < 600) ->
  header_sent w = false ->
  end_once w = [] ->
  settle req (Part000.responder cfg req err w)
  = settle req (IndexJs.responder cfg' req err w).
Proof.
  intros Hst Hm Hp Ho Hs Hw He.
  assert (S : statusCode (IndexJs.resolve_status err w)
              = Part000.resolve_status (statusCode w) err).
  { unfold IndexJs.resolve_status, Part000.resolve_status.
    destruct err as [e|]; [|reflexivity].
    destruct (err_status e) as [n|] eqn:En.
    - destruct (Hs e n eq_refl En) as [-> | Hn].
      + cbn. now destruct (negb (truthy_number (statusCode w))
                           || (statusCode w <? 400)).
      + replace (400 <=? n) with true by lia.
        replace (n <? 600) with true by lia.
        assert (truthy_number n = true) as ->
            by (unfold truthy_number; apply negb_true_iff; lia).
        reflexivity.
    - now destruct (negb (truthy_number (statusCode w)) || (statusCode w <? 400)). }
  assert (B : body_index_js cfg' req err w = body_part000 cfg req err w).
  { unfold body_index_js, body_part000. rewrite S. f_equal.
    unfold IndexJs.resolve_message, Part000.resolve_message,
      Part000.getErrorMessage.
    rewrite Hst, Hm, Hp, S. destruct err; reflexivity. }
  rewrite (ResponderFacts.part000_open cfg req err w Hw).
  rewrite (ResponderFacts.index_js_open cfg' req err w Hw).
  rewrite S, B.
  rewrite ResponderFacts.schedule_part000, ResponderFacts.schedule_index_js.
  rewrite (ResponderFacts.resolve_index_js err w). cbn [statusCode header_sent
    headers end_once effects]. rewrite S, <- Ho.
  rewrite !TransmitterFacts.settle_send by (cbn; exact He).
  change (mkWorld (Part000.resolve_status (statusCode w) err) (header_sent w)
            (headers w) (end_once w)
            (effects w ++ deferred_calls (Part000.cfg_onerror cfg) err)%list)
    with (set_statusCode (Part000.resolve_status (statusCode w) err)
            (mkWorld (statusCode w) (header_sent w) (headers w) (end_once w)
               (effects w ++ deferred_calls (Part000.cfg_onerror cfg) err)%list)).
  rewrite StreamFacts.drain_set_statusCode, StreamFacts.write_set_statusCode.
  reflexivity.
Qed.

Lemma variants_agree_on_valid_status_witness :
  settle post_request
    (Part000.responder (H := node) part000_defaults post_request
       (Some stack_error) fresh_world)
  = settle post_request
      (IndexJs.responder (H := node)
         (IndexJs.mkConfig (JString "production") JUndefined) post_request
         (Some stack_error) fresh_world).
Proof.
  apply (variants_agree_on_valid_status (H := node) part000_defaults
           (IndexJs.mkConfig (JString "production") JUndefined) post_request
           (Some stack_error) fresh_world eq_refl eq_refl eq_refl eq_refl);
    [|reflexivity|reflexivity].
  intros e n [= <-] [= <-]. right. lia.
Defined.

(** The whole invocation of [index.js]'s responder, when the request
    stream is still readable and the headers were not sent: the resolved
    status is in [res.statusCode] at once, but no header and no body is
    written until the stream ends; then the write sequence runs once,
    with that status and the negotiated body. *)
Theorem index_js_defers_writes_until_end `{Collaborators}
        (cfg : IndexJs.Config) (req : Request) (err : option Error) (w : World) :
  readable req = true ->
  header_sent w = false ->
  end_once w = [] ->
  (statusCode (IndexJs.responder cfg req err w)
   = statusCode (IndexJs.resolve_status err w)
   /\ headers (IndexJs.responder cfg req err w) = headers w
   /\ writes (IndexJs.responder cfg req err w) = writes w)
  /\ emit_end (IndexJs.responder cfg req err w)
     = write req (statusCode (IndexJs.resolve_status err w))
             (body_index_js cfg req err w)
             (drain req (IndexJs.schedule_onerror (IndexJs.cfg_onerror cfg) err
                           (IndexJs.resolve_status err w)))
  /\ emit_end (emit_end (IndexJs.responder cfg req err w))
     = emit_end (IndexJs.responder cfg req err w).
Proof.
  intros Hr Hw He.
  rewrite (ResponderFacts.index_js_open cfg req err w Hw).
  set (w0 := IndexJs.schedule_onerror (IndexJs.cfg_onerror cfg) err
               (IndexJs.resolve_status err w)).
  assert (statusCode w0 = statusCode (IndexJs.resolve_status err w)
          /\ headers w0 = headers w
          /\ writes w0 = writes w /\ end_once w0 = []) as (A0 & C0 & E0 & D0).
  { pose proof (ResponderFacts.resolve_index_js err w) as R.
    assert (headers (IndexJs.resolve_status err w) = headers w) as Rh
        by (rewrite R; reflexivity).
    assert (end_once (IndexJs.resolve_status err w) = end_once w) as Re
        by (rewrite R; reflexivity).
    assert (effects (IndexJs.resolve_status err w) = effects w) as Rf
        by (rewrite R; reflexivity).
    unfold w0. rewrite ResponderFacts.schedule_index_js.
    unfold writes. cbn. rewrite List.filter_app, Rh, Re, Rf.
    destruct (ResponderFacts.deferred_not_written (IndexJs.cfg_onerror cfg) err)
      as [-> _].
    now rewrite app_nil_r. }
  destruct (TransmitterFacts.drain_frame req w0) as (A & _ & C & _ & E & _).
  cbn zeta in *.
  split; [|split].
  - rewrite (TransmitterFacts.send_readable req _ _ w0 Hr). cbn.
    unfold writes in *. cbn. rewrite A, C, E, A0, C0, E0. repeat split.
  - pose proof (TransmitterFacts.settle_send req
                  (statusCode (IndexJs.resolve_status err w))
                  (body_index_js cfg req err w) w0 D0) as S.
    unfold settle in S. rewrite Hr in S. exact S.
  - apply TransmitterFacts.emit_end_twice.
Qed.

Lemma index_js_defers_writes_until_end_witness :
  readable post_request = true
  /\ writes (IndexJs.responder (H := node) index_js_defaults post_request
               (Some (plain_error (Some 404))) fresh_world) = []
  /\ statusCode (IndexJs.responder (H := node) index_js_defaults post_request
                   (Some (plain_error (Some 404))) fresh_world) = 404.
Proof.
  split; [reflexivity|].
  pose proof (index_js_defers_writes_until_end (H := node) index_js_defaults
                post_request (Some (plain_error (Some 404))) fresh_world
                eq_refl eq_refl eq_refl) as ((S & _ & W) & _ & _).
  split; [exact W | exact S].
Defined.
